(** * The Jest reporter of currents-reporter: event aggregation and status reduction

    A shallow embedding of [packages/jest-reporter/src/reporter.ts]: the
    reporter object ([CustomReporter]) becomes a record that the lifecycle
    handlers pass along, the three tables of [Deferred] promises become finite
    maps of gates, and every [await] becomes a case distinction on the gate
    that is awaited: a gate that is missing rejects the handler, a gate that
    is resolved lets it go on at once, and a gate that is not resolved
    suspends it.  Only [reportDirDeferred] is ever stored unresolved; the
    [onTestFileStart] calls that wait for it are queued and resumed by
    [onRunStart].  Between two calls of the runner no other code runs. *)

From Stdlib Require Import ZArith List Bool Lia Ascii.
From stdpp Require Import gmap strings list fin_maps.

Local Open Scope string_scope.
Local Open Scope Z_scope.

(** ** Data the runner hands to the reporter *)

(** [Circus.BlockMode] is [void | "skip" | "only" | "todo"]. *)
Module BlockMode.
Inductive t := normal | skip | only | todo.

(** [["skip", "todo"].includes(mode)] *)
Definition isSkipOrTodo (m : t) : bool :=
  match m with
  | skip | todo => true
  | normal | only => false
  end.
End BlockMode.

(** The fields of Jest's [TestCaseResult] that the reporter reads.  The status
    is kept as the string Jest sends, so that values outside the documented
    union can be fed to the reducer as well. *)
Module TestCaseResult.
Record t := {
  status : string;
  ancestorTitles : list string;
  title : string;
  invocations : option Z;
  duration : option Z;
  failureMessages : option (list string)
}.
End TestCaseResult.

(** The fields of [Circus.TestCaseStartInfo] that the reporter reads. *)
Module TestCaseStartInfo.
Record t := {
  ancestorTitles : list string;
  title : string;
  mode : BlockMode.t;
  startedAt : option Z
}.
End TestCaseStartInfo.

(** A Jest [Test].  [testToSpecName] and [getProjectId] are helpers of [./lib]
    that read the test's path and project configuration; a test is represented
    by what they return for it, together with [context.config.rootDir]. *)
Record Test := {
  testToSpecName : string;
  getProjectId : string;
  context_config_rootDir : string
}.

(** Jest's file-level [TestResult]. *)
Module TestResult.
Record t := {
  testResults : list TestCaseResult.t;
  perfStats_start : Z;
  perfStats_end : Z;
  numPassingTests : nat;
  numPendingTests : nat;
  numTodoTests : nat;
  numFailingTests : nat
}.
End TestResult.

(** ** The two status enumerations *)

Module TestState.
Inductive t := Failed | Passed | Pending | Skipped.

Definition value (s : t) : string :=
  match s with
  | Failed => "failed"
  | Passed => "passed"
  | Pending => "pending"
  | Skipped => "skipped"
  end.
End TestState.

Module TestExpectedStatus.
Inductive t := Passed | Failed | TimedOut | Skipped | Interrupted.

Definition value (s : t) : string :=
  match s with
  | Passed => "passed"
  | Failed => "failed"
  | TimedOut => "timedOut"
  | Skipped => "skipped"
  | Interrupted => "interrupted"
  end.
End TestExpectedStatus.

(** ** Records kept by the reporter *)

Record WorkerInfo := {
  workerIndex : Z;
  parallelIndex : Z
}.

Module TestCase.
Record t := {
  id : string;
  timestamps : list Z;
  title : list string;
  mode : BlockMode.t;
  result : list TestCaseResult.t;
  worker : WorkerInfo;
  config_rootDir : string
}.

Definition with_timestamps (f : list Z -> list Z) (c : t) : t :=
  {| id := id c; timestamps := f (timestamps c); title := title c;
     mode := mode c; result := result c; worker := worker c;
     config_rootDir := config_rootDir c |}.

Definition with_result
    (f : list TestCaseResult.t -> list TestCaseResult.t) (c : t) : t :=
  {| id := id c; timestamps := timestamps c; title := title c;
     mode := mode c; result := f (result c); worker := worker c;
     config_rootDir := config_rootDir c |}.
End TestCase.

(** ** Status reducer *)

Definition statusToCurrentsStatus (testStatus : string) : TestState.t :=
  if String.eqb testStatus "passed" then TestState.Passed
  else if String.eqb testStatus "failed" then TestState.Failed
  else if String.eqb testStatus "skipped" then TestState.Pending
  else if String.eqb testStatus "todo" then TestState.Pending
  else if String.eqb testStatus "pending" then TestState.Pending
  else if String.eqb testStatus "disabled" then TestState.Pending
  else TestState.Failed.

(** [allStatuses.every((status) => status === allStatuses[0])]; the first
    element of an empty array is [undefined]. *)
Definition everySame (first : option string) (allStatuses : list string) : bool :=
  forallb (fun status =>
             match first with
             | Some s0 => String.eqb status s0
             | None => false
             end) allStatuses.

(** The [match(...).with(...).otherwise(...)] chain of [getRawTestStatus]. *)
Definition matchStatus (first : option string) : TestExpectedStatus.t :=
  match first with
  | Some s =>
      if String.eqb s "disabled" || String.eqb s "skipped"
         || String.eqb s "todo" || String.eqb s "pending"
      then TestExpectedStatus.Skipped
      else if String.eqb s "passed" then TestExpectedStatus.Passed
      else if String.eqb s "failed" then TestExpectedStatus.Failed
      else TestExpectedStatus.Failed
  | None => TestExpectedStatus.Failed
  end.

Definition getRawTestStatus
    (testCaseResults : list TestCaseResult.t) : TestExpectedStatus.t :=
  let allStatuses := map TestCaseResult.status testCaseResults in
  if everySame (head allStatuses) allStatuses
  then matchStatus (head allStatuses)
  else TestExpectedStatus.Failed.

(** [flowRight(statusToCurrentsStatus, getRawTestStatus)]: the enum member
    returned by [getRawTestStatus] reaches [statusToCurrentsStatus] as its
    string value. *)
Definition getTestCaseStatus (testCaseResults : list TestCaseResult.t) : TestState.t :=
  statusToCurrentsStatus (TestExpectedStatus.value (getRawTestStatus testCaseResults)).

Definition getAttempt (result : TestCaseResult.t) : Z :=
  match TestCaseResult.invocations result with
  | Some n => n
  | None => 1
  end.

(** The [isFlaky] field of a report entry. *)
Definition isFlaky (result : list TestCaseResult.t) : bool :=
  (1 <? length result)%nat &&
  match result !! (length result - 1)%nat with
  | Some r => String.eqb (TestCaseResult.status r) (TestState.value TestState.Passed)
  | None => false
  end.


(** ** The report written for a spec file *)

(** The value of [getError(formatError(rootDir, new Error(i), false, specName),
    rootDir)]: both helpers belong to [./lib], so an error of the report is
    kept as the three values it is computed from. *)
Record CurrentsError := {
  error_rootDir : string;
  error_message : string;
  error_specName : string
}.

(** An ISO-8601 string made by [new Date(ms).toISOString()] is represented by
    [ms], the milliseconds it encodes. *)
Module Attempt.
Record t := {
  _s : TestState.t;
  attempt : Z;
  workerIndex : Z;
  parallelIndex : Z;
  startTime : Z;
  steps : list string;
  duration : Z;
  status : TestExpectedStatus.t;
  stdout : list string;
  stderr : list string;
  errors : list CurrentsError;
  error : option CurrentsError
}.
End Attempt.

Module ReportTest.
Record t := {
  _t : Z;
  testId : string;
  title : list string;
  state : TestState.t;
  isFlaky : bool;
  expectedStatus : TestExpectedStatus.t;
  timeout : Z;
  location : Z * string * Z;
  retries : nat;
  attempts : list Attempt.t
}.
End ReportTest.

Module Stats.
Record t := {
  suites : nat;
  tests : nat;
  passes : nat;
  pending : nat;
  skipped : nat;
  failures : nat;
  flaky : nat;
  wallClockStartedAt : Z;
  wallClockEndedAt : Z;
  wallClockDuration : Z
}.
End Stats.

Module InstanceReport.
Record t := {
  groupId : string;
  spec : string;
  worker : WorkerInfo;
  startTime : Z;
  results_stats : Stats.t;
  results_tests : list ReportTest.t
}.
End InstanceReport.

(** One element of [attempts]: the callback of [testCase.result.map] in
    [onTestFileResult].  [testCase.result[index]] is [result] itself. *)
Definition reportAttempt (testCase : TestCase.t) (startTime : Z) (specName : string)
    (index : nat) (result : TestCaseResult.t) : Attempt.t :=
  let errors :=
    map (fun i => {| error_rootDir := TestCase.config_rootDir testCase;
                     error_message := i;
                     error_specName := specName |})
        (default [] (TestCaseResult.failureMessages result)) in
  {| Attempt._s := getTestCaseStatus [result];
     Attempt.attempt := getAttempt result;
     Attempt.workerIndex := workerIndex (TestCase.worker testCase);
     Attempt.parallelIndex := parallelIndex (TestCase.worker testCase);
     Attempt.startTime :=
       match TestCase.timestamps testCase !! index with
       | Some ts =>
           if negb (length (TestCase.timestamps testCase) =? 0)%nat && negb (ts =? 0)
           then ts else startTime
       | None => startTime
       end;
     Attempt.steps := [];
     Attempt.duration := default 0 (TestCaseResult.duration result);
     Attempt.status := getRawTestStatus [result];
     Attempt.stdout := [];
     Attempt.stderr := default [] (TestCaseResult.failureMessages result);
     Attempt.errors := errors;
     Attempt.error := head errors |}.

(** One element of [tests]: the callback of
    [Object.values(this.specInfo[specKey].testCaseList).map]. *)
Definition reportTest (perfStats_start startTime : Z) (specName : string)
    (testCase : TestCase.t) : ReportTest.t :=
  let status := getTestCaseStatus (TestCase.result testCase) in
  {| ReportTest._t := default perfStats_start (head (TestCase.timestamps testCase));
     ReportTest.testId := TestCase.id testCase;
     ReportTest.title := TestCase.title testCase;
     ReportTest.state := status;
     ReportTest.isFlaky := isFlaky (TestCase.result testCase);
     ReportTest.expectedStatus :=
       if BlockMode.isSkipOrTodo (TestCase.mode testCase)
       then TestExpectedStatus.Skipped
       else TestExpectedStatus.Passed;
     ReportTest.timeout := 0;
     ReportTest.location := (1, specName, 1);
     ReportTest.retries := (length (TestCase.result testCase) + 1)%nat;
     ReportTest.attempts :=
       imap (reportAttempt testCase startTime specName) (TestCase.result testCase) |}.

(** ** Objects used as dictionaries *)

(** [testCaseList] is a plain object whose [Object.values] are listed, so it is
    kept as an association list in insertion order: assigning to a key that is
    present replaces the value in place, assigning to a new key appends. *)
Fixpoint prop_get {A} (key : string) (obj : list (string * A)) : option A :=
  match obj with
  | [] => None
  | (k, v) :: rest => if String.eqb k key then Some v else prop_get key rest
  end.

Fixpoint prop_set {A} (key : string) (v : A) (obj : list (string * A))
    : list (string * A) :=
  match obj with
  | [] => [(key, v)]
  | (k, w) :: rest =>
      if String.eqb k key then (k, v) :: rest else (k, w) :: prop_set key v rest
  end.

Definition Object_values {A} (obj : list (string * A)) : list A := map snd obj.

Module SpecInfo.
Record t := {
  projectId : string;
  specName : string;
  testCaseList : list (string * TestCase.t);
  specResult : option TestResult.t;
  worker : WorkerInfo
}.

Definition with_testCaseList
    (f : list (string * TestCase.t) -> list (string * TestCase.t)) (s : t) : t :=
  {| projectId := projectId s; specName := specName s;
     testCaseList := f (testCaseList s); specResult := specResult s;
     worker := worker s |}.
End SpecInfo.

(** ** Deferred gates *)

(** Modelled from the spec: the class [Deferred] is imported from [./lib],
    which is not among the sources.  A gate is created unresolved, [resolve]
    settles it and a waiter passes once it is settled.  [gateId] stands for the
    identity of the JavaScript object (two gates made by two [new Deferred()]
    differ), [resolveCalls] counts the calls of [resolve] on it. *)
Record Deferred := {
  gateId : nat;
  resolveCalls : nat
}.

Definition newDeferred (fresh : nat) : Deferred :=
  {| gateId := fresh; resolveCalls := 0 |}.

Definition resolve (d : Deferred) : Deferred :=
  {| gateId := gateId d; resolveCalls := S (resolveCalls d) |}.

Definition settled (d : Deferred) : bool := negb (resolveCalls d =? 0)%nat.

(** How an [async] handler, or one [await] inside it, ends. *)
Inductive Settled := Fulfilled | Rejected | Pending.

(** [await table[key].promise]: reading [.promise] of [undefined] throws a
    TypeError, which rejects the handler; an unresolved gate suspends it. *)
Definition await (gate : option Deferred) : Settled :=
  match gate with
  | None => Rejected
  | Some d => if settled d then Fulfilled else Pending
  end.

(** [Promise.all] over settlements: rejected as soon as one is rejected,
    pending while one is pending, fulfilled otherwise. *)
Definition Promise_all (l : list Settled) : Settled :=
  if existsb (fun s => match s with Rejected => true | _ => false end) l then Rejected
  else if existsb (fun s => match s with Pending => true | _ => false end) l then Pending
  else Fulfilled.

(** ** The reporter object *)

Record Reporter := {
  rootDir : string;
  reportDir : string;
  instancesDir : string;
  specInfo : gmap string SpecInfo.t;
  projectBySpecMap : gmap string string;
  specsCount : nat;
  processedSpecsCount : nat;
  reportDirDeferred : Deferred;
  specInfoDeferred : gmap string Deferred;
  testCaseDeferred : gmap string Deferred;
  resultsDeferred : gmap string Deferred;
  (** [process.env.JEST_WORKER_ID] as a number, [None] when unset or empty *)
  JEST_WORKER_ID : option Z;
  (** the next unused gate identity *)
  nextGate : nat;
  (** the [onTestFileStart] calls suspended on [reportDirDeferred], oldest first *)
  awaitingReportDir : list Test;
  (** the writes of report files so far: directory, file name, content; newest
      first (a write replaces what its path held) *)
  files : list (string * string * InstanceReport.t)
}.

Definition set_dirs (reportDir' instancesDir' : string) (r : Reporter) : Reporter :=
  {| rootDir := rootDir r; reportDir := reportDir'; instancesDir := instancesDir';
     specInfo := specInfo r; projectBySpecMap := projectBySpecMap r;
     specsCount := specsCount r; processedSpecsCount := processedSpecsCount r;
     reportDirDeferred := reportDirDeferred r;
     specInfoDeferred := specInfoDeferred r;
     testCaseDeferred := testCaseDeferred r;
     resultsDeferred := resultsDeferred r;
     JEST_WORKER_ID := JEST_WORKER_ID r; nextGate := nextGate r;
     awaitingReportDir := awaitingReportDir r; files := files r |}.

Definition set_specInfo (m : gmap string SpecInfo.t) (r : Reporter) : Reporter :=
  {| rootDir := rootDir r; reportDir := reportDir r; instancesDir := instancesDir r;
     specInfo := m; projectBySpecMap := projectBySpecMap r;
     specsCount := specsCount r; processedSpecsCount := processedSpecsCount r;
     reportDirDeferred := reportDirDeferred r;
     specInfoDeferred := specInfoDeferred r;
     testCaseDeferred := testCaseDeferred r;
     resultsDeferred := resultsDeferred r;
     JEST_WORKER_ID := JEST_WORKER_ID r; nextGate := nextGate r;
     awaitingReportDir := awaitingReportDir r; files := files r |}.

Definition set_projectBySpecMap (m : gmap string string) (r : Reporter) : Reporter :=
  {| rootDir := rootDir r; reportDir := reportDir r; instancesDir := instancesDir r;
     specInfo := specInfo r; projectBySpecMap := m;
     specsCount := specsCount r; processedSpecsCount := processedSpecsCount r;
     reportDirDeferred := reportDirDeferred r;
     specInfoDeferred := specInfoDeferred r;
     testCaseDeferred := testCaseDeferred r;
     resultsDeferred := resultsDeferred r;
     JEST_WORKER_ID := JEST_WORKER_ID r; nextGate := nextGate r;
     awaitingReportDir := awaitingReportDir r; files := files r |}.

Definition set_counts (specsCount' processedSpecsCount' : nat) (r : Reporter) : Reporter :=
  {| rootDir := rootDir r; reportDir := reportDir r; instancesDir := instancesDir r;
     specInfo := specInfo r; projectBySpecMap := projectBySpecMap r;
     specsCount := specsCount'; processedSpecsCount := processedSpecsCount';
     reportDirDeferred := reportDirDeferred r;
     specInfoDeferred := specInfoDeferred r;
     testCaseDeferred := testCaseDeferred r;
     resultsDeferred := resultsDeferred r;
     JEST_WORKER_ID := JEST_WORKER_ID r; nextGate := nextGate r;
     awaitingReportDir := awaitingReportDir r; files := files r |}.

Definition set_reportDirDeferred (d : Deferred) (r : Reporter) : Reporter :=
  {| rootDir := rootDir r; reportDir := reportDir r; instancesDir := instancesDir r;
     specInfo := specInfo r; projectBySpecMap := projectBySpecMap r;
     specsCount := specsCount r; processedSpecsCount := processedSpecsCount r;
     reportDirDeferred := d;
     specInfoDeferred := specInfoDeferred r;
     testCaseDeferred := testCaseDeferred r;
     resultsDeferred := resultsDeferred r;
     JEST_WORKER_ID := JEST_WORKER_ID r; nextGate := nextGate r;
     awaitingReportDir := awaitingReportDir r; files := files r |}.

Definition set_awaitingReportDir (l : list Test) (r : Reporter) : Reporter :=
  {| rootDir := rootDir r; reportDir := reportDir r; instancesDir := instancesDir r;
     specInfo := specInfo r; projectBySpecMap := projectBySpecMap r;
     specsCount := specsCount r; processedSpecsCount := processedSpecsCount r;
     reportDirDeferred := reportDirDeferred r;
     specInfoDeferred := specInfoDeferred r;
     testCaseDeferred := testCaseDeferred r;
     resultsDeferred := resultsDeferred r;
     JEST_WORKER_ID := JEST_WORKER_ID r; nextGate := nextGate r;
     awaitingReportDir := l; files := files r |}.

Definition set_files (l : list (string * string * InstanceReport.t)) (r : Reporter)
    : Reporter :=
  {| rootDir := rootDir r; reportDir := reportDir r; instancesDir := instancesDir r;
     specInfo := specInfo r; projectBySpecMap := projectBySpecMap r;
     specsCount := specsCount r; processedSpecsCount := processedSpecsCount r;
     reportDirDeferred := reportDirDeferred r;
     specInfoDeferred := specInfoDeferred r;
     testCaseDeferred := testCaseDeferred r;
     resultsDeferred := resultsDeferred r;
     JEST_WORKER_ID := JEST_WORKER_ID r; nextGate := nextGate r;
     awaitingReportDir := awaitingReportDir r; files := l |}.

(** The three tables of gates. *)
Inductive GateTable := SpecGates | CaseGates | ResultGates.

#[global] Instance GateTable_eq_dec : EqDecision GateTable.
Proof. solve_decision. Defined.

Definition gates (t : GateTable) (r : Reporter) : gmap string Deferred :=
  match t with
  | SpecGates => specInfoDeferred r
  | CaseGates => testCaseDeferred r
  | ResultGates => resultsDeferred r
  end.

(** [this.table[key] = new Deferred<void>(); this.table[key].resolve()] *)
Definition createResolved (t : GateTable) (key : string) (r : Reporter) : Reporter :=
  let d := resolve (newDeferred (nextGate r)) in
  {| rootDir := rootDir r; reportDir := reportDir r; instancesDir := instancesDir r;
     specInfo := specInfo r; projectBySpecMap := projectBySpecMap r;
     specsCount := specsCount r; processedSpecsCount := processedSpecsCount r;
     reportDirDeferred := reportDirDeferred r;
     specInfoDeferred :=
       match t with SpecGates => <[key := d]> (specInfoDeferred r)
                  | _ => specInfoDeferred r end;
     testCaseDeferred :=
       match t with CaseGates => <[key := d]> (testCaseDeferred r)
                  | _ => testCaseDeferred r end;
     resultsDeferred :=
       match t with ResultGates => <[key := d]> (resultsDeferred r)
                  | _ => resultsDeferred r end;
     JEST_WORKER_ID := JEST_WORKER_ID r; nextGate := S (nextGate r);
     awaitingReportDir := awaitingReportDir r; files := files r |}.

(** The reporter as its constructor leaves it; [reportDirDeferred] is the
    first gate made. *)
Definition newReporter (globalConfig_rootDir : string) (env : option Z) : Reporter :=
  {| rootDir := globalConfig_rootDir; reportDir := ""; instancesDir := "";
     specInfo := ∅; projectBySpecMap := ∅;
     specsCount := 0; processedSpecsCount := 0;
     reportDirDeferred := newDeferred 0;
     specInfoDeferred := ∅; testCaseDeferred := ∅; resultsDeferred := ∅;
     JEST_WORKER_ID := env; nextGate := 1;
     awaitingReportDir := []; files := [] |}.

(** ** Identity of specs and test cases *)

Definition getSpecKey (projectId specName : string) : string :=
  projectId +:+ ":" +:+ specName.

Definition getTestCaseKey (projectId specName testId : string) : string :=
  projectId +:+ ":" +:+ specName +:+ ":" +:+ testId.

Definition getWorker (env : option Z) (skipped : bool) : WorkerInfo :=
  let workerIndex := if skipped then -1 else default 1 env in
  {| workerIndex := workerIndex; parallelIndex := workerIndex |}.

(** [this.projectBySpecMap[specName]], spliced into a template literal: a
    missing entry reads as the text [undefined]. *)
Definition projectOf (r : Reporter) (specName : string) : string :=
  default "undefined" (projectBySpecMap r !! specName).

(** ** A spec file with one test, for concrete runs *)

Module Scenario.
(** stands for [generateShortHash] *)
Definition shortHash (s : string) : string := "h-" +:+ s.

(** stands for the derivation of the test id *)
Definition testId (path : string) (titles : list string) : string :=
  shortHash (String.concat " " titles +:+ path).

(** stands for [path.join], on a directory and a name that need no
    normalization *)
Definition pathJoin (basePath name : string) : string := basePath +:+ "/" +:+ name.

Definition test : Test :=
  {| testToSpecName := "sum.test.ts";
     getProjectId := "root";
     context_config_rootDir := "/repo" |}.

Definition start : TestCaseStartInfo.t :=
  {| TestCaseStartInfo.ancestorTitles := ["sum"];
     TestCaseStartInfo.title := "adds";
     TestCaseStartInfo.mode := BlockMode.normal;
     TestCaseStartInfo.startedAt := Some 1000 |}.

Definition outcome (status : string) (invocations : Z) : TestCaseResult.t :=
  {| TestCaseResult.status := status;
     TestCaseResult.ancestorTitles := ["sum"];
     TestCaseResult.title := "adds";
     TestCaseResult.invocations := Some invocations;
     TestCaseResult.duration := Some 7;
     TestCaseResult.failureMessages :=
       if String.eqb status "failed" then Some ["expected 3"] else Some [] |}.

Definition passed : TestCaseResult.t := outcome "passed" 1.

Definition fileResult : TestResult.t :=
  {| TestResult.testResults := [passed];
     TestResult.perfStats_start := 900;
     TestResult.perfStats_end := 1100;
     TestResult.numPassingTests := 1;
     TestResult.numPendingTests := 0;
     TestResult.numTodoTests := 0;
     TestResult.numFailingTests := 0 |}.

(** a record with the attempts failed, failed, passed, started normally *)
Definition flakyCase : TestCase.t :=
  {| TestCase.id := testId "sum.test.ts" ["sum"; "adds"];
     TestCase.timestamps := [1000; 1010; 1020];
     TestCase.title := ["sum"; "adds"];
     TestCase.mode := BlockMode.normal;
     TestCase.result := [outcome "failed" 1; outcome "failed" 2; outcome "passed" 3];
     TestCase.worker := {| workerIndex := 1; parallelIndex := 1 |};
     TestCase.config_rootDir := "/repo" |}.

Definition specKey : string := "root:sum.test.ts".

Definition testCaseKey : string := "root:sum.test.ts:h-sum addssum.test.ts".
End Scenario.

Section Handlers.

(** [generateShortHash] of [./lib] names the report file of a spec. *)
Variable generateShortHash : string -> string.

(** The derivation of a test id from the path of the spec and the chain of
    titles of the test, as done by [getTestCaseId] in [./lib]. *)
Variable deriveTestId : string -> list string -> string.

(** [path.join] of Node's [path] module, for the platform the reporter runs
    on: it joins a directory and a name and normalizes the result. *)
Variable join : string -> string -> string.

(** Modelled from the spec: [getTestCaseFullTitle] is imported from [./lib],
    which is not among the sources; the title of a test case is the ordered
    sequence of the describe path followed by the name of the test. *)
Definition getTestCaseFullTitle (ancestorTitles : list string) (title : string)
    : list string :=
  (ancestorTitles ++ [title])%list.

(** Modelled from the spec: [getTestCaseId] is imported from [./lib], which is
    not among the sources; the id is derived from the stable metadata the
    runner supplies, the path and the chain of titles, and from nothing else
    in the start info or the result it is computed for. *)
Definition getTestCaseId (test : Test) (ancestorTitles : list string) (title : string)
    : string :=
  deriveTestId (testToSpecName test) (getTestCaseFullTitle ancestorTitles title).

(** The record both [onTestFileStart] and [onTestCaseStart] store. *)
Definition emptySpecInfo (env : option Z) (projectId specName : string) : SpecInfo.t :=
  {| SpecInfo.projectId := projectId;
     SpecInfo.specName := specName;
     SpecInfo.testCaseList := [];
     SpecInfo.specResult := None;
     SpecInfo.worker := getWorker env false |}.

(** [onTestFileStart] after [await this.reportDirDeferred.promise]. *)
Definition onTestFileStart_resume (test : Test) (r : Reporter) : Reporter :=
  let specName := testToSpecName test in
  let projectId := getProjectId test in
  let specKey := getSpecKey projectId specName in
  let r := set_specInfo
             (<[specKey := emptySpecInfo (JEST_WORKER_ID r) projectId specName]>
                (specInfo r)) r in
  createResolved SpecGates specKey r.

(** [onTestFileStart]: the bookkeeping of [projectBySpecMap], the wait for the
    report directory, then the rest; a call that has to wait is queued and is
    resumed by [onRunStart]. *)
Definition onTestFileStart (test : Test) (r : Reporter) : Reporter * Settled :=
  let specName := testToSpecName test in
  let projectId := getProjectId test in
  let r := set_projectBySpecMap (<[specName := projectId]> (projectBySpecMap r)) r in
  match await (Some (reportDirDeferred r)) with
  | Fulfilled => (onTestFileStart_resume test r, Fulfilled)
  | Pending => (set_awaitingReportDir (awaitingReportDir r ++ [test])%list r, Pending)
  | Rejected => (r, Rejected)
  end.

(** [onRunStart].  [uniqueDirName] is the name [generateUniqueDirName] makes
    from the clock and a uuid; [fs_ok] tells whether the folders and
    [config.json] could be written (if not, the error is thrown again and the
    gate stays unresolved).  Resolving the gate lets the queued
    [onTestFileStart] calls continue, in the order they were suspended. *)
Definition onRunStart (numTotalTestSuites : nat) (uniqueDirName : string)
    (fs_ok : bool) (r : Reporter) : Reporter * Settled :=
  let r := set_counts numTotalTestSuites (processedSpecsCount r) r in
  if fs_ok then
    let reportDir := join (rootDir r) uniqueDirName in
    let r := set_dirs reportDir (join reportDir "instances") r in
    let r := set_reportDirDeferred (resolve (reportDirDeferred r)) r in
    let waiting := awaitingReportDir r in
    let r := set_awaitingReportDir [] r in
    (fold_left (fun r test => onTestFileStart_resume test r) waiting r, Fulfilled)
  else (r, Rejected).

(** [onTestCaseStart]; [now] is [new Date().getTime()].  The handler has no
    [await], so it always runs to its end. *)
Definition onTestCaseStart (test : Test) (testCaseStartInfo : TestCaseStartInfo.t)
    (now : Z) (r : Reporter) : Reporter * Settled :=
  let specName := testToSpecName test in
  let projectId := projectOf r specName in
  let testId := getTestCaseId test (TestCaseStartInfo.ancestorTitles testCaseStartInfo)
                  (TestCaseStartInfo.title testCaseStartInfo) in
  let specKey := getSpecKey projectId specName in
  let '(r, spec) :=
    match specInfo r !! specKey with
    | Some spec => (r, spec)
    | None =>
        let spec := emptySpecInfo (JEST_WORKER_ID r) projectId specName in
        (createResolved SpecGates specKey
           (set_specInfo (<[specKey := spec]> (specInfo r)) r), spec)
    end in
  let testCaseKey := getTestCaseKey projectId specName testId in
  let startedAt := default now (TestCaseStartInfo.startedAt testCaseStartInfo) in
  match prop_get testCaseKey (SpecInfo.testCaseList spec) with
  | None =>
      let testCase :=
        {| TestCase.id := testId;
           TestCase.timestamps := [startedAt];
           TestCase.title :=
             getTestCaseFullTitle (TestCaseStartInfo.ancestorTitles testCaseStartInfo)
               (TestCaseStartInfo.title testCaseStartInfo);
           TestCase.mode := TestCaseStartInfo.mode testCaseStartInfo;
           TestCase.result := [];
           TestCase.worker := getWorker (JEST_WORKER_ID r) false;
           TestCase.config_rootDir := context_config_rootDir test |} in
      let spec := SpecInfo.with_testCaseList (prop_set testCaseKey testCase) spec in
      (createResolved CaseGates testCaseKey
         (set_specInfo (<[specKey := spec]> (specInfo r)) r), Fulfilled)
  | Some testCase =>
      let testCase := TestCase.with_timestamps (fun ts => (ts ++ [startedAt])%list) testCase in
      let spec := SpecInfo.with_testCaseList (prop_set testCaseKey testCase) spec in
      (set_specInfo (<[specKey := spec]> (specInfo r)) r, Fulfilled)
  end.

(** The record [onTestCaseResult] and [onTestFileResult] make for a test that
    has none. *)
Definition skippedTestCase (test : Test) (testId : string)
    (testCaseResult : TestCaseResult.t) (result : list TestCaseResult.t) : TestCase.t :=
  {| TestCase.id := testId;
     TestCase.timestamps := [];
     TestCase.title :=
       getTestCaseFullTitle (TestCaseResult.ancestorTitles testCaseResult)
         (TestCaseResult.title testCaseResult);
     TestCase.mode := BlockMode.skip;
     TestCase.result := result;
     TestCase.worker := getWorker None true;
     TestCase.config_rootDir := context_config_rootDir test |}.

(** The guard of [onTestCaseResult] for a case-start that was not called: the
    per-case gate is made, and resolved, unless the key has one. *)
Definition ensureCaseGate (testCaseKey : string) (r : Reporter) : Reporter :=
  match testCaseDeferred r !! testCaseKey with
  | None => createResolved CaseGates testCaseKey r
  | Some _ => r
  end.

(** [onTestCaseResult].  Reading [testCaseList] of a spec record that does not
    exist throws, like awaiting a gate that does not exist. *)
Definition onTestCaseResult (test : Test) (testCaseResult : TestCaseResult.t)
    (r : Reporter) : Reporter * Settled :=
  let specName := testToSpecName test in
  let projectId := projectOf r specName in
  let testId := getTestCaseId test (TestCaseResult.ancestorTitles testCaseResult)
                  (TestCaseResult.title testCaseResult) in
  let specKey := getSpecKey projectId specName in
  match await (specInfoDeferred r !! specKey) with
  | Fulfilled =>
      let testCaseKey := getTestCaseKey projectId specName testId in
      let r := ensureCaseGate testCaseKey r in
      match await (testCaseDeferred r !! testCaseKey) with
      | Fulfilled =>
          match specInfo r !! specKey with
          | None => (r, Rejected)
          | Some spec =>
              let testCase :=
                match prop_get testCaseKey (SpecInfo.testCaseList spec) with
                | None => skippedTestCase test testId testCaseResult []
                | Some testCase => testCase
                end in
              let testCase :=
                TestCase.with_result (fun l => (l ++ [testCaseResult])%list) testCase in
              let spec :=
                SpecInfo.with_testCaseList (prop_set testCaseKey testCase) spec in
              (createResolved ResultGates testCaseKey
                 (set_specInfo (<[specKey := spec]> (specInfo r)) r), Fulfilled)
          end
      | other => (r, other)
      end
  | other => (r, other)
  end.

(** One callback of [testResult.testResults.map(async ...)] in
    [onTestFileResult], run up to its [await]: the callbacks run one after the
    other, each leaves its own settlement, and [Promise.all] joins them. *)
Definition settleDeclaredTest (test : Test) (projectId specName : string)
    (acc : Reporter * list Settled) (testResult : TestCaseResult.t)
    : Reporter * list Settled :=
  let '(r, settlements) := acc in
  let specKey := getSpecKey projectId specName in
  let testId := getTestCaseId test (TestCaseResult.ancestorTitles testResult)
                  (TestCaseResult.title testResult) in
  let testCaseKey := getTestCaseKey projectId specName testId in
  match specInfo r !! specKey with
  | None => (r, (settlements ++ [Rejected])%list)
  | Some spec =>
      match prop_get testCaseKey (SpecInfo.testCaseList spec) with
      | None =>
          let testCase := skippedTestCase test testId testResult [testResult] in
          let spec := SpecInfo.with_testCaseList (prop_set testCaseKey testCase) spec in
          (set_specInfo (<[specKey := spec]> (specInfo r)) r,
           (settlements ++ [Fulfilled])%list)
      | Some _ =>
          (r, (settlements ++ [await (resultsDeferred r !! testCaseKey)])%list)
      end
  end.

(** The payload [onTestFileResult] serializes. *)
Definition instanceReport (spec : SpecInfo.t) (specName : string)
    (testResult : TestResult.t) : InstanceReport.t :=
  let startTime := TestResult.perfStats_start testResult in
  let endTime := TestResult.perfStats_end testResult in
  let wallClockDuration :=
    TestResult.perfStats_end testResult - TestResult.perfStats_start testResult in
  let tests :=
    map (reportTest (TestResult.perfStats_start testResult) startTime specName)
        (Object_values (SpecInfo.testCaseList spec)) in
  let flakyCount := length (List.filter ReportTest.isFlaky tests) in
  {| InstanceReport.groupId := SpecInfo.projectId spec;
     InstanceReport.spec := SpecInfo.specName spec;
     InstanceReport.worker := SpecInfo.worker spec;
     InstanceReport.startTime := startTime;
     InstanceReport.results_stats :=
       {| Stats.suites := 1;
          Stats.tests := length (TestResult.testResults testResult);
          Stats.passes := TestResult.numPassingTests testResult;
          Stats.pending := 0;
          Stats.skipped :=
            (TestResult.numPendingTests testResult
             + TestResult.numTodoTests testResult)%nat;
          Stats.failures := TestResult.numFailingTests testResult;
          Stats.flaky := flakyCount;
          Stats.wallClockStartedAt := startTime;
          Stats.wallClockEndedAt := endTime;
          Stats.wallClockDuration := wallClockDuration |};
     InstanceReport.results_tests := tests |}.

(** [onTestFileResult]; [fs_ok] tells whether the report file could be
    written (if not, the error is thrown again). *)
Definition onTestFileResult (test : Test) (testResult : TestResult.t) (fs_ok : bool)
    (r : Reporter) : Reporter * Settled :=
  let specName := testToSpecName test in
  let projectId := projectOf r specName in
  let specKey := getSpecKey projectId specName in
  let '(r, settlements) :=
    fold_left (settleDeclaredTest test projectId specName)
      (TestResult.testResults testResult) (r, []) in
  match Promise_all settlements with
  | Fulfilled =>
      match specInfo r !! specKey with
      | None => (r, Rejected)
      | Some spec =>
          let result := instanceReport spec specName testResult in
          if fs_ok then
            let file := (instancesDir r,
                         generateShortHash (SpecInfo.specName spec) +:+ ".json",
                         result) in
            (set_counts (specsCount r) (S (processedSpecsCount r))
               (set_files (file :: files r) r), Fulfilled)
          else (r, Rejected)
      end
  | other => (r, other)
  end.

Definition onRunComplete (r : Reporter) : Reporter * Settled := (r, Fulfilled).

(** ** Runs: the calls the runner makes, in the order it makes them *)

Inductive Event :=
| RunStart (numTotalTestSuites : nat) (uniqueDirName : string) (fs_ok : bool)
| TestFileStart (test : Test)
| TestCaseStart (test : Test) (testCaseStartInfo : TestCaseStartInfo.t) (now : Z)
| TestCaseResultEv (test : Test) (testCaseResult : TestCaseResult.t)
| TestFileResult (test : Test) (testResult : TestResult.t) (fs_ok : bool)
| RunComplete.

Definition handle (e : Event) (r : Reporter) : Reporter * Settled :=
  match e with
  | RunStart n dir ok => onRunStart n dir ok r
  | TestFileStart test => onTestFileStart test r
  | TestCaseStart test info now => onTestCaseStart test info now r
  | TestCaseResultEv test res => onTestCaseResult test res r
  | TestFileResult test res ok => onTestFileResult test res ok r
  | RunComplete => onRunComplete r
  end.

(** The reporter after a sequence of calls; a call that is rejected or stays
    pending leaves behind what it did before. *)
Fixpoint run (events : list Event) (r : Reporter) : Reporter :=
  match events with
  | [] => r
  | e :: rest => run rest (fst (handle e r))
  end.

(** The settlements of the calls of a run, in order. *)
Fixpoint settlements (events : list Event) (r : Reporter) : list Settled :=
  match events with
  | [] => []
  | e :: rest => snd (handle e r) :: settlements rest (fst (handle e r))
  end.

(** ** Notions the properties are stated with *)

(** The test case record stored for a test-case key under a spec key. *)
Definition testCaseAt (r : Reporter) (specKey testCaseKey : string) : option TestCase.t :=
  match specInfo r !! specKey with
  | Some spec => prop_get testCaseKey (SpecInfo.testCaseList spec)
  | None => None
  end.

(** A gate of a table is sound when [resolve] was called on it exactly once
    and its identity is older than the next one to be given out. *)
Definition gate_ok (bound : nat) (d : Deferred) : Prop :=
  resolveCalls d = 1%nat /\ (gateId d < bound)%nat.

Definition gates_ok (r : Reporter) : Prop :=
  forall t key d, gates t r !! key = Some d -> gate_ok (nextGate r) d.

(** A per-spec gate is stored exactly where a spec record is stored. *)
Definition spec_gates_backed (r : Reporter) : Prop :=
  forall key, is_Some (specInfoDeferred r !! key) <-> is_Some (specInfo r !! key).

Definition reporter_ok (r : Reporter) : Prop :=
  gates_ok r /\ spec_gates_backed r.

(** A gate survives a step when the key still holds the same object. *)
Definition gate_kept (t : GateTable) (key : string) (r r' : Reporter) : Prop :=
  forall d, gates t r !! key = Some d ->
    exists d', gates t r' !! key = Some d' /\ gateId d' = gateId d.

(** The runner marks a test as skipped by the status of its result. *)
Definition runnerMarkedSkipped (testCaseResult : TestCaseResult.t) : bool :=
  let s := TestCaseResult.status testCaseResult in
  String.eqb s "skipped" || String.eqb s "todo"
  || String.eqb s "pending" || String.eqb s "disabled".

(** The events of one logical test: its case-start and case-result calls,
    whatever their attempt number, start time, outcome or duration. *)
Definition describes (test : Test) (ancestorTitles : list string) (title : string)
    (e : Event) : Prop :=
  match e with
  | TestCaseStart test' info _ =>
      test' = test /\ TestCaseStartInfo.ancestorTitles info = ancestorTitles
      /\ TestCaseStartInfo.title info = title
  | TestCaseResultEv test' res =>
      test' = test /\ TestCaseResult.ancestorTitles res = ancestorTitles
      /\ TestCaseResult.title res = title
  | _ => False
  end.

(** A sequence of calls that opens with a case start. *)
Definition startsWithCaseStart (events : list Event) : Prop :=
  match events with
  | TestCaseStart _ _ _ :: _ => True
  | _ => False
  end.

Definition countResults (events : list Event) : nat :=
  length (List.filter (fun e => match e with TestCaseResultEv _ _ => true | _ => false end)
            events).

(** The number of attempts recorded for a test-case key, none without a
    record. *)
Definition attemptsAt (r : Reporter) (specKey testCaseKey : string) : nat :=
  match testCaseAt r specKey testCaseKey with
  | Some testCase => length (TestCase.result testCase)
  | None => 0
  end.

(** The test-case key a case handler computes for a call that reaches the
    reporter [r]. *)
Definition testCaseKeyOf (e : Event) (r : Reporter) : option string :=
  match e with
  | TestCaseStart test info _ =>
      Some (getTestCaseKey (projectOf r (testToSpecName test)) (testToSpecName test)
              (getTestCaseId test (TestCaseStartInfo.ancestorTitles info)
                 (TestCaseStartInfo.title info)))
  | TestCaseResultEv test res =>
      Some (getTestCaseKey (projectOf r (testToSpecName test)) (testToSpecName test)
              (getTestCaseId test (TestCaseResult.ancestorTitles res)
                 (TestCaseResult.title res)))
  | _ => None
  end.

(** The keys computed along a run, call by call. *)
Fixpoint keysUsed (events : list Event) (r : Reporter) : list (option string) :=
  match events with
  | [] => []
  | e :: rest => testCaseKeyOf e r :: keysUsed rest (fst (handle e r))
  end.

(** [isFlaky] in the words of the specification. *)
Definition isFlaky_spec (attempts : list TestCaseResult.t) : Prop :=
  (1 < length attempts)%nat /\
  exists r, last attempts = Some r /\ TestCaseResult.status r = "passed".

(** [rawStatus] of a list of equal outcomes, in the words of the
    specification, with the default for an outcome it does not list. *)
Definition rawStatus_spec (kind : string) : TestExpectedStatus.t :=
  if decide (kind ∈ ["skipped"; "todo"; "pending"; "disabled"])
  then TestExpectedStatus.Skipped
  else if decide (kind = "passed") then TestExpectedStatus.Passed
  else TestExpectedStatus.Failed.

(** ** The name of the report directory *)

(** [timestamp.replace(/[:.]/g, "-")] *)
Fixpoint replaceColonsAndDots (timestamp : string) : string :=
  match timestamp with
  | EmptyString => EmptyString
  | String c rest =>
      String (if (Ascii.eqb c ":" || Ascii.eqb c ".")%bool then "-"%char else c)
        (replaceColonsAndDots rest)
  end.

(** [generateUniqueDirName]; [isoNow] is [new Date().toISOString()] and
    [uniqueId] is [uuidv4()]. *)
Definition generateUniqueDirName (baseName isoNow uniqueId : string) : string :=
  baseName +:+ "-" +:+ replaceColonsAndDots isoNow +:+ "-" +:+ uniqueId.

(** The folder [onRunStart] asks [createUniqueFolder] for:
    [this.options?.reportDir ?? ".currents-report"] under the root directory. *)
Definition uniqueFolderPath (rootDir : string) (options_reportDir : option string)
    (isoNow uniqueId : string) : string :=
  join rootDir
    (generateUniqueDirName (default ".currents-report" options_reportDir) isoNow uniqueId).

(** [s.includes(c)] for a single character *)
Fixpoint includesChar (c : Ascii.ascii) (s : string) : bool :=
  match s with
  | EmptyString => false
  | String c' rest => (Ascii.eqb c' c || includesChar c rest)%bool
  end.

(** ** Options handed on to the discovery run *)

Definition ignoredOptions : list string :=
  ["clearCache"; "clearMocks"; "collectCoverage"; "collectCoverageFrom"; "color";
   "colors"; "config"; "coverage"; "coverageDirectory"; "coveragePathIgnorePatterns";
   "coverageProvider"; "coverageReporters"; "coverageThreshold"; "debug";
   "detectLeaks"; "detectOpenHandles"; "errorOnDeprecated"; "expand"; "forceExit";
   "json"; "listTests"; "logHeapUsage"; "noStackTrace"; "notify"; "notifyMode";
   "openHandlesTimeout"; "outputFile"; "prettierPath"; "reporters"; "runner";
   "shard"; "showConfig"; "showSeed"; "silent"; "testNamePattern"; "verbose";
   "waitNextEventLoopTurnForUnhandledRejectionEvents"; "watch"; "watchAll";
   "watchPathIgnorePatterns"; "watchman"].

(** lodash's [omit(object, ...paths)] for paths that are plain property names,
    on an object given by its own entries in enumeration order. *)
Definition omit {A} (object : list (string * A)) (paths : list string)
    : list (string * A) :=
  List.filter (fun entry => negb (existsb (String.eqb (fst entry)) paths)) object.

Definition getDiscoveryOptions {A} (options : list (string * A)) : list (string * A) :=
  omit options ignoredOptions.

(** A value of the parsed command line as [argvToString] tells them apart: a
    boolean, an array, or anything else; array elements and other values are
    kept as the text a template literal makes of them. *)
Inductive ArgvValue :=
| ArgvBoolean (value : bool)
| ArgvArray (values : list string)
| ArgvOther (value : string).

(** [key === "_" || key === "$0" || key.includes("-")] *)
Definition argvKeySkipped (key : string) : bool :=
  String.eqb key "_" || String.eqb key "$0" || includesChar "-" key.

(** What one turn of the loop of [argvToString] pushes on [args]. *)
Definition argvEntryArgs (entry : string * ArgvValue) : list string :=
  let '(key, value) := entry in
  if argvKeySkipped key then []
  else
    match value with
    | ArgvBoolean b => if b then ["--" +:+ key] else []
    | ArgvArray values => map (fun val => "--" +:+ key +:+ "=" +:+ val) values
    | ArgvOther value => ["--" +:+ key +:+ "=" +:+ value]
    end.

(** An entry that pushes something on [args]. *)
Definition argvContributes (entry : string * ArgvValue) : bool :=
  negb (argvKeySkipped (fst entry))
  && match snd entry with
     | ArgvBoolean b => b
     | ArgvArray values => negb (length values =? 0)%nat
     | ArgvOther _ => true
     end.

(** [args] after the loop over [Object.entries(argv)] *)
Definition argvArgs (argv : list (string * ArgvValue)) : list string :=
  flat_map argvEntryArgs argv.

Definition argvToString (argv : list (string * ArgvValue)) : string :=
  String.concat " " (argvArgs argv).

(** ** Further notions for the properties *)

(** The attempts and the start times recorded for a test-case key, none
    without a record. *)
Definition resultsAt (r : Reporter) (specKey testCaseKey : string)
    : list TestCaseResult.t :=
  match testCaseAt r specKey testCaseKey with
  | Some testCase => TestCase.result testCase
  | None => []
  end.

Definition timestampsAt (r : Reporter) (specKey testCaseKey : string) : list Z :=
  match testCaseAt r specKey testCaseKey with
  | Some testCase => TestCase.timestamps testCase
  | None => []
  end.

(** The results that the case-result calls of a sequence bring, and the start
    times that its case-start calls bring, in the order of the calls. *)
Definition resultsOf (events : list Event) : list TestCaseResult.t :=
  flat_map (fun e => match e with TestCaseResultEv _ res => [res] | _ => [] end) events.

Definition startTimesOf (events : list Event) : list Z :=
  flat_map (fun e => match e with
                     | TestCaseStart _ info now =>
                         [default now (TestCaseStartInfo.startedAt info)]
                     | _ => []
                     end) events.

(** The spec key under which a case or file-result handler works. *)
Definition specKeyOf (e : Event) (r : Reporter) : option string :=
  match e with
  | TestCaseStart test _ _ | TestCaseResultEv test _ | TestFileResult test _ _ =>
      Some (getSpecKey (projectOf r (testToSpecName test)) (testToSpecName test))
  | _ => None
  end.

(** The test-case key [onTestFileResult] computes for a declared test. *)
Definition declaredKey (test : Test) (r : Reporter) (testResult : TestCaseResult.t)
    : string :=
  getTestCaseKey (projectOf r (testToSpecName test)) (testToSpecName test)
    (getTestCaseId test (TestCaseResult.ancestorTitles testResult)
       (TestCaseResult.title testResult)).

(** The report files on disk after the writes of the reporter, by path:
    [fs.writeFile] replaces what the path held, so of the writes to one path
    the newest is the one that stays. *)
Definition disk (r : Reporter) : gmap string InstanceReport.t :=
  foldr (fun file onDisk => <[join file.1.1 file.1.2 := file.2]> onDisk) ∅ (files r).

Definition countFileResults (events : list Event) : nat :=
  length (List.filter (fun e => match e with TestFileResult _ _ _ => true | _ => false end)
            events).

(** A spec that has just been started: an empty record under the key and a
    per-spec gate. *)
Definition freshlyStarted (r : Reporter) (specKey : string) : Prop :=
  (exists spec, specInfo r !! specKey = Some spec /\ SpecInfo.testCaseList spec = [])
  /\ is_Some (specInfoDeferred r !! specKey).

Set Default Proof Using "Type".

(** ** The status reducer *)

Lemma everySame_repeat (s : string) (l : list string) :
  Forall (fun x => x = s) l -> everySame (Some s) l = true.
Proof.
  induction 1 as [|x l Hx _ IH]; simpl; [reflexivity|].
  subst x. rewrite String.eqb_refl. exact IH.
Qed.

Lemma matchStatus_spec (s : string) : matchStatus (Some s) = rawStatus_spec s.
Proof.
  unfold matchStatus, rawStatus_spec.
  destruct (String.eqb_spec s "disabled") as [->|Hd]; [reflexivity|].
  destruct (String.eqb_spec s "skipped") as [->|Hs]; [reflexivity|].
  destruct (String.eqb_spec s "todo") as [->|Ht]; [reflexivity|].
  destruct (String.eqb_spec s "pending") as [->|Hp]; [reflexivity|].
  simpl. rewrite decide_False.
  - destruct (String.eqb_spec s "passed") as [->|Hpa].
    + reflexivity.
    + rewrite decide_False by assumption. destruct (String.eqb s "failed"); reflexivity.
  - rewrite !elem_of_cons, elem_of_nil. intros [?|[?|[?|[?|[]]]]]; contradiction.
Qed.

Lemma getRawTestStatus_uniform (s : string) (l : list TestCaseResult.t) :
  l <> [] -> Forall (fun r => TestCaseResult.status r = s) l ->
  getRawTestStatus l = rawStatus_spec s.
Proof.
  intros Hne Hall. unfold getRawTestStatus.
  destruct l as [|r l]; [congruence|].
  assert (Hs : TestCaseResult.status r = s) by (inversion Hall; assumption).
  cbn [map head]. rewrite Hs.
  rewrite everySame_repeat.
  - apply matchStatus_spec.
  - constructor; [reflexivity|]. apply Forall_map.
    inversion Hall; assumption.
Qed.

Lemma isFlaky_last (l : list TestCaseResult.t) :
  l !! (length l - 1)%nat = last l.
Proof. rewrite last_lookup. f_equal. lia. Qed.


Lemma reportTest_attempts_length (start startTime : Z) (specName : string)
    (testCase : TestCase.t) :
  length (ReportTest.attempts (reportTest start startTime specName testCase))
  = length (TestCase.result testCase).
Proof. unfold reportTest. cbn [ReportTest.attempts]. apply length_imap. Qed.

(** C6: the [isFlaky] flag of a report entry is set exactly when the test case
    has more than one attempt and the outcome of its last attempt is passed. *)
Theorem isFlaky_iff (attempts : list TestCaseResult.t) :
  isFlaky attempts = true <-> isFlaky_spec attempts.
Proof.
  unfold isFlaky, isFlaky_spec.
  rewrite andb_true_iff, Nat.ltb_lt, isFlaky_last.
  split; intros [Hlen Hlast]; (split; [exact Hlen|]).
  - destruct (last attempts) as [r|]; [|discriminate].
    exists r. split; [reflexivity|]. apply String.eqb_eq. exact Hlast.
  - destruct Hlast as (r & -> & Hr). apply String.eqb_eq. exact Hr.
Qed.

(** C7: on a non-empty list of attempts that all have the same outcome kind,
    [getRawTestStatus] is the map of the specification: skipped, todo, pending
    and disabled give Skipped, passed gives Passed, failed gives Failed; a kind
    outside these six gives Failed as well, from [getRawTestStatus] and from
    [statusToCurrentsStatus], so a status comes out for every input. *)
Theorem getRawTestStatus_same_kind (attempts : list TestCaseResult.t) (kind : string) :
  attempts <> [] ->
  Forall (fun r => TestCaseResult.status r = kind) attempts ->
  getRawTestStatus attempts = rawStatus_spec kind
  /\ (kind ∉ ["skipped"; "todo"; "pending"; "disabled"; "passed"; "failed"] ->
      getRawTestStatus attempts = TestExpectedStatus.Failed
      /\ statusToCurrentsStatus kind = TestState.Failed).
Proof.
  intros Hne Hall.
  pose proof (getRawTestStatus_uniform kind attempts Hne Hall) as Hraw.
  split; [exact Hraw|].
  intros Hnot. rewrite !not_elem_of_cons in Hnot.
  destruct Hnot as (Hs & Ht & Hp & Hd & Hpa & Hf & _).
  split.
  - rewrite Hraw. unfold rawStatus_spec.
    rewrite decide_False
      by (rewrite !elem_of_cons, elem_of_nil; intros [?|[?|[?|[?|[]]]]]; contradiction).
    rewrite decide_False by assumption. reflexivity.
  - unfold statusToCurrentsStatus.
    repeat match goal with
           | |- context [String.eqb kind ?c] =>
               destruct (String.eqb_spec kind c); [congruence|]
           end.
    reflexivity.
Qed.

(** C2, as the code has it: with the attempts failed, failed, passed the
    entry is flaky, [getRawTestStatus] is Failed and so is the [state] field;
    with the single attempt passed the entry is not flaky and its [state] is
    Passed.  In both cases the [expectedStatus] field is read off the mode of
    the record alone: Skipped for skip and todo, Passed otherwise. *)
Theorem reportTest_flaky_and_single (start startTime : Z) (specName : string)
    (testCase : TestCase.t) :
  let entry := reportTest start startTime specName testCase in
  let statuses := map TestCaseResult.status (TestCase.result testCase) in
  (statuses = ["failed"; "failed"; "passed"] ->
     ReportTest.isFlaky entry = true
     /\ getRawTestStatus (TestCase.result testCase) = TestExpectedStatus.Failed
     /\ ReportTest.state entry = TestState.Failed)
  /\ (statuses = ["passed"] ->
     ReportTest.isFlaky entry = false
     /\ getRawTestStatus (TestCase.result testCase) = TestExpectedStatus.Passed
     /\ ReportTest.state entry = TestState.Passed)
  /\ ReportTest.expectedStatus entry =
       (if BlockMode.isSkipOrTodo (TestCase.mode testCase)
        then TestExpectedStatus.Skipped else TestExpectedStatus.Passed).
Proof.
  cbn zeta. unfold reportTest.
  cbn [ReportTest.isFlaky ReportTest.state ReportTest.expectedStatus].
  unfold getTestCaseStatus, getRawTestStatus, isFlaky.
  destruct (TestCase.result testCase) as [|a [|b [|c [|d l]]]];
    (split; [|split; [|reflexivity]]); intros Hst; try discriminate Hst;
    cbn in Hst; simplify_eq; cbn;
    repeat match goal with H : _ = _ :> string |- _ => rewrite H end;
    cbn; auto.
Qed.

(** ** Dictionaries *)

Lemma prop_get_set_eq {A} (key : string) (v : A) (obj : list (string * A)) :
  prop_get key (prop_set key v obj) = Some v.
Proof.
  induction obj as [|[k w] rest IH]; simpl.
  - rewrite String.eqb_refl. reflexivity.
  - destruct (String.eqb_spec k key) as [->|Hne]; simpl.
    + rewrite String.eqb_refl. reflexivity.
    + destruct (String.eqb_spec k key); [congruence|]. exact IH.
Qed.

Lemma prop_get_set_ne {A} (key key' : string) (v : A) (obj : list (string * A)) :
  key <> key' -> prop_get key' (prop_set key v obj) = prop_get key' obj.
Proof.
  intros Hne. induction obj as [|[k w] rest IH]; simpl.
  - destruct (String.eqb_spec key key'); [congruence|reflexivity].
  - destruct (String.eqb_spec k key) as [->|Hk]; simpl.
    + destruct (String.eqb_spec key key'); [congruence|reflexivity].
    + rewrite IH. reflexivity.
Qed.

Lemma prop_set_length_new {A} (key : string) (v : A) (obj : list (string * A)) :
  prop_get key obj = None -> length (prop_set key v obj) = S (length obj).
Proof.
  induction obj as [|[k w] rest IH]; simpl; [reflexivity|].
  destruct (String.eqb_spec k key); [discriminate|].
  intros H. simpl. rewrite IH by assumption. reflexivity.
Qed.

Lemma prop_set_length_old {A} (key : string) (v : A) (obj : list (string * A)) :
  is_Some (prop_get key obj) -> length (prop_set key v obj) = length obj.
Proof.
  induction obj as [|[k w] rest IH]; simpl.
  - intros [? ?]; discriminate.
  - destruct (String.eqb_spec k key); [reflexivity|].
    intros H. simpl. rewrite IH by assumption. reflexivity.
Qed.

(** ** What the updates of the reporter leave alone *)

Lemma gates_createResolved (t t' : GateTable) (key : string) (r : Reporter) :
  gates t (createResolved t' key r)
  = if decide (t = t')
    then <[key := resolve (newDeferred (nextGate r))]> (gates t r)
    else gates t r.
Proof. destruct t, t'; reflexivity. Qed.

Lemma gates_set_specInfo (t : GateTable) m (r : Reporter) :
  gates t (set_specInfo m r) = gates t r.
Proof. destruct t; reflexivity. Qed.

Lemma gates_set_projectBySpecMap (t : GateTable) m (r : Reporter) :
  gates t (set_projectBySpecMap m r) = gates t r.
Proof. destruct t; reflexivity. Qed.

Lemma gates_set_counts (t : GateTable) a b (r : Reporter) :
  gates t (set_counts a b r) = gates t r.
Proof. destruct t; reflexivity. Qed.

Lemma gates_set_dirs (t : GateTable) a b (r : Reporter) :
  gates t (set_dirs a b r) = gates t r.
Proof. destruct t; reflexivity. Qed.

Lemma gates_set_reportDirDeferred (t : GateTable) d (r : Reporter) :
  gates t (set_reportDirDeferred d r) = gates t r.
Proof. destruct t; reflexivity. Qed.

Lemma gates_set_awaitingReportDir (t : GateTable) l (r : Reporter) :
  gates t (set_awaitingReportDir l r) = gates t r.
Proof. destruct t; reflexivity. Qed.

Lemma gates_set_files (t : GateTable) l (r : Reporter) :
  gates t (set_files l r) = gates t r.
Proof. destruct t; reflexivity. Qed.

Create Rewrite HintDb reporter.

#[local] Hint Rewrite gates_createResolved gates_set_specInfo gates_set_projectBySpecMap
  gates_set_counts gates_set_dirs gates_set_reportDirDeferred
  gates_set_awaitingReportDir gates_set_files : reporter.

(** An update that keeps the three tables and the identity counter keeps the
    soundness of the gates. *)
Lemma gates_ok_same (r r' : Reporter) :
  (forall t, gates t r' = gates t r) -> nextGate r' = nextGate r ->
  gates_ok r -> gates_ok r'.
Proof.
  intros Hg Hn Hok t key d. rewrite Hg, Hn. apply Hok.
Qed.

Lemma gates_ok_createResolved (t : GateTable) (key : string) (r : Reporter) :
  gates_ok r -> gates_ok (createResolved t key r).
Proof.
  intros Hok t0 k d. rewrite gates_createResolved.
  change (nextGate (createResolved t key r)) with (S (nextGate r)).
  destruct (decide (t0 = t)) as [->|Hne].
  - destruct (decide (key = k)) as [->|Hk].
    + rewrite lookup_insert_eq. intros [= <-]. split; simpl; lia.
    + rewrite lookup_insert_ne by assumption.
      intros H. destruct (Hok _ _ _ H). split; [assumption|lia].
  - intros H. destruct (Hok _ _ _ H). split; [assumption|lia].
Qed.

Lemma gates_ok_set_specInfo m (r : Reporter) :
  gates_ok r -> gates_ok (set_specInfo m r).
Proof. apply gates_ok_same; [intros t; apply gates_set_specInfo|reflexivity]. Qed.

Lemma gates_ok_resume (test : Test) (r : Reporter) :
  gates_ok r -> gates_ok (onTestFileStart_resume test r).
Proof.
  intros Hok. unfold onTestFileStart_resume.
  apply gates_ok_createResolved, gates_ok_set_specInfo, Hok.
Qed.

Lemma gates_ok_resume_all (waiting : list Test) (r : Reporter) :
  gates_ok r ->
  gates_ok (fold_left (fun r test => onTestFileStart_resume test r) waiting r).
Proof.
  revert r. induction waiting as [|test waiting IH]; intros r Hok; simpl.
  - exact Hok.
  - apply IH, gates_ok_resume, Hok.
Qed.

Lemma gates_ok_onTestFileStart (test : Test) (r : Reporter) :
  gates_ok r -> gates_ok (fst (onTestFileStart test r)).
Proof.
  intros Hok. unfold onTestFileStart.
  assert (Hp : gates_ok (set_projectBySpecMap
            (<[testToSpecName test := getProjectId test]> (projectBySpecMap r)) r)).
  { revert Hok. apply gates_ok_same; [intros t; apply gates_set_projectBySpecMap|reflexivity]. }
  destruct (await _); simpl.
  - apply gates_ok_resume, Hp.
  - exact Hp.
  - revert Hp. apply gates_ok_same; [intros t; apply gates_set_awaitingReportDir|reflexivity].
Qed.

Lemma gates_ok_onRunStart n dir ok (r : Reporter) :
  gates_ok r -> gates_ok (fst (onRunStart n dir ok r)).
Proof.
  intros Hok. unfold onRunStart.
  assert (H1 : gates_ok (set_counts n (processedSpecsCount r) r)).
  { revert Hok. apply gates_ok_same; [intros t; apply gates_set_counts|reflexivity]. }
  destruct ok; simpl; [|exact H1].
  apply gates_ok_resume_all.
  revert H1. apply gates_ok_same; [|reflexivity].
  intros tbl. autorewrite with reporter. reflexivity.
Qed.

Lemma gates_ok_onTestCaseStart test info now (r : Reporter) :
  gates_ok r -> gates_ok (fst (onTestCaseStart test info now r)).
Proof.
  intros Hok. unfold onTestCaseStart.
  destruct (specInfo r !! _) as [spec|]; cbn zeta beta iota.
  - destruct (prop_get _ _); simpl.
    + apply gates_ok_set_specInfo, Hok.
    + apply gates_ok_createResolved, gates_ok_set_specInfo, Hok.
  - destruct (prop_get _ _); simpl.
    + apply gates_ok_set_specInfo, gates_ok_createResolved, gates_ok_set_specInfo, Hok.
    + apply gates_ok_createResolved, gates_ok_set_specInfo, gates_ok_createResolved,
        gates_ok_set_specInfo, Hok.
Qed.

Lemma gates_ok_onTestCaseResult test res (r : Reporter) :
  gates_ok r -> gates_ok (fst (onTestCaseResult test res r)).
Proof.
  intros Hok. unfold onTestCaseResult.
  destruct (await (specInfoDeferred r !! _)); simpl; try exact Hok.
  set (r1 := ensureCaseGate _ r).
  assert (H1 : gates_ok r1).
  { subst r1. unfold ensureCaseGate. destruct (testCaseDeferred r !! _); [exact Hok|].
    apply gates_ok_createResolved, Hok. }
  destruct (await (testCaseDeferred r1 !! _)); simpl; try exact H1.
  destruct (specInfo r1 !! _); simpl; [|exact H1].
  apply gates_ok_createResolved, gates_ok_set_specInfo, H1.
Qed.

(** ** The finalization of a spec file *)

Lemma set_specInfo_id (r : Reporter) : set_specInfo (specInfo r) r = r.
Proof. destruct r; reflexivity. Qed.

Lemma settleDeclaredTest_frame test projectId specName acc testResult :
  let out := settleDeclaredTest test projectId specName acc testResult in
  fst out = set_specInfo (specInfo (fst out)) (fst acc)
  /\ (forall key, is_Some (specInfo (fst out) !! key) <->
                  is_Some (specInfo (fst acc) !! key)).
Proof.
  destruct acc as [r l]. unfold settleDeclaredTest. cbn [fst].
  destruct (specInfo r !! _) as [spec|] eqn:Hspec.
  - destruct (prop_get _ _); cbn [fst].
    + split; [symmetry; apply set_specInfo_id|reflexivity].
    + split; [reflexivity|]. intros key. cbn.
      rewrite lookup_insert_is_Some.
      destruct (decide (getSpecKey projectId specName = key)) as [<-|Hne].
      * rewrite Hspec. split; eauto.
      * split; [intros [?|[_ ?]]; [contradiction|assumption]|auto].
  - cbn [fst]. split; [symmetry; apply set_specInfo_id|reflexivity].
Qed.

Lemma settle_all_frame test projectId specName (l : list TestCaseResult.t) acc :
  let out := fold_left (settleDeclaredTest test projectId specName) l acc in
  fst out = set_specInfo (specInfo (fst out)) (fst acc)
  /\ (forall key, is_Some (specInfo (fst out) !! key) <->
                  is_Some (specInfo (fst acc) !! key)).
Proof.
  revert acc. induction l as [|x l IH]; intros acc; cbn [fold_left].
  - split; [symmetry; apply set_specInfo_id|reflexivity].
  - destruct (IH (settleDeclaredTest test projectId specName acc x)) as [Heq Hdom].
    destruct (settleDeclaredTest_frame test projectId specName acc x) as [Heq1 Hdom1].
    cbn zeta in *. split.
    + rewrite Heq at 1. rewrite Heq1. reflexivity.
    + intros key. rewrite Hdom. apply Hdom1.
Qed.

(** A call of [onTestFileResult] that is fulfilled has written one file, the
    report of the spec record as the synthesis of skipped tests left it. *)
Lemma onTestFileResult_fulfilled test testResult fs_ok (r r' : Reporter) :
  onTestFileResult test testResult fs_ok r = (r', Fulfilled) ->
  let specName := testToSpecName test in
  exists spec,
    specInfo r' !! getSpecKey (projectOf r specName) specName = Some spec
    /\ files r' =
         (instancesDir r, generateShortHash (SpecInfo.specName spec) +:+ ".json",
          instanceReport spec specName testResult) :: files r.
Proof.
  unfold onTestFileResult. intros H. cbn zeta.
  pose proof (settle_all_frame test (projectOf r (testToSpecName test))
                (testToSpecName test) (TestResult.testResults testResult) (r, []))
    as [Hframe _].
  cbn zeta in Hframe. cbn [fst] in Hframe.
  destruct (fold_left _ _ _) as [r1 l]. cbn [fst] in Hframe.
  destruct (Promise_all l); try discriminate.
  destruct (specInfo r1 !! _) as [spec|] eqn:Hspec; [|discriminate].
  destruct fs_ok; [|discriminate].
  injection H as <-. exists spec. split.
  - exact Hspec.
  - cbn. rewrite Hframe. reflexivity.
Qed.

Lemma gates_ok_onTestFileResult test testResult fs_ok (r : Reporter) :
  gates_ok r -> gates_ok (fst (onTestFileResult test testResult fs_ok r)).
Proof.
  intros Hok. unfold onTestFileResult.
  pose proof (settle_all_frame test (projectOf r (testToSpecName test))
                (testToSpecName test) (TestResult.testResults testResult) (r, []))
    as [Hframe _].
  cbn zeta in Hframe. cbn [fst] in Hframe.
  destruct (fold_left _ _ _) as [r1 l]. cbn [fst] in Hframe.
  assert (H1 : gates_ok r1).
  { rewrite Hframe. apply gates_ok_set_specInfo, Hok. }
  destruct (Promise_all l); cbn [fst]; try exact H1.
  destruct (specInfo r1 !! _); cbn [fst]; [|exact H1].
  destruct fs_ok; cbn [fst]; [|exact H1].
  revert H1. apply gates_ok_same; [|reflexivity].
  intros tbl. autorewrite with reporter. reflexivity.
Qed.

Lemma gates_ok_handle (e : Event) (r : Reporter) :
  gates_ok r -> gates_ok (fst (handle e r)).
Proof.
  destruct e; simpl.
  - apply gates_ok_onRunStart.
  - apply gates_ok_onTestFileStart.
  - apply gates_ok_onTestCaseStart.
  - apply gates_ok_onTestCaseResult.
  - apply gates_ok_onTestFileResult.
  - auto.
Qed.

Lemma gates_ok_run (events : list Event) (r : Reporter) :
  gates_ok r -> gates_ok (run events r).
Proof.
  revert r. induction events as [|e events IH]; intros r Hok; simpl.
  - exact Hok.
  - apply IH, gates_ok_handle, Hok.
Qed.

Lemma gates_ok_newReporter (globalConfig_rootDir : string) (env : option Z) :
  gates_ok (newReporter globalConfig_rootDir env).
Proof. intros [] key d; cbn; rewrite lookup_empty; discriminate. Qed.

(** ** Every per-spec gate comes with a spec record *)

Lemma backed_grow (r r' : Reporter) :
  specInfoDeferred r' = specInfoDeferred r ->
  (forall key, is_Some (specInfo r' !! key) <-> is_Some (specInfo r !! key)) ->
  spec_gates_backed r -> spec_gates_backed r'.
Proof.
  intros Hg Hs Hb key. rewrite Hg, Hs. apply Hb.
Qed.

Lemma backed_put (key : string) (spec : SpecInfo.t) (r : Reporter) :
  is_Some (specInfo r !! key) ->
  spec_gates_backed r ->
  spec_gates_backed (set_specInfo (<[key := spec]> (specInfo r)) r).
Proof.
  intros Hkey. apply backed_grow; [reflexivity|].
  intros k. cbn. rewrite lookup_insert_is_Some.
  destruct (decide (key = k)) as [<-|Hne].
  - split; eauto.
  - split; [intros [?|[_ ?]]; [contradiction|assumption]|auto].
Qed.

Lemma backed_new_spec (key : string) (spec : SpecInfo.t) (r : Reporter) :
  spec_gates_backed r ->
  spec_gates_backed
    (createResolved SpecGates key (set_specInfo (<[key := spec]> (specInfo r)) r)).
Proof.
  intros Hb k. cbn. rewrite !lookup_insert_is_Some, (Hb k). reflexivity.
Qed.

Lemma backed_other_gate (t : GateTable) (key : string) (r : Reporter) :
  t <> SpecGates ->
  spec_gates_backed r -> spec_gates_backed (createResolved t key r).
Proof.
  intros Ht. apply backed_grow; [|reflexivity].
  destruct t; [congruence|reflexivity|reflexivity].
Qed.

Lemma backed_resume (test : Test) (r : Reporter) :
  spec_gates_backed r -> spec_gates_backed (onTestFileStart_resume test r).
Proof. apply backed_new_spec. Qed.

Lemma backed_resume_all (waiting : list Test) (r : Reporter) :
  spec_gates_backed r ->
  spec_gates_backed (fold_left (fun r test => onTestFileStart_resume test r) waiting r).
Proof.
  revert r. induction waiting as [|test waiting IH]; intros r Hb; simpl.
  - exact Hb.
  - apply IH, backed_resume, Hb.
Qed.

Lemma backed_onTestFileStart (test : Test) (r : Reporter) :
  spec_gates_backed r -> spec_gates_backed (fst (onTestFileStart test r)).
Proof.
  intros Hb. unfold onTestFileStart.
  destruct (await _); cbn [fst].
  - apply backed_resume. revert Hb. apply backed_grow; [reflexivity|reflexivity].
  - revert Hb. apply backed_grow; [reflexivity|reflexivity].
  - revert Hb. apply backed_grow; [reflexivity|reflexivity].
Qed.

Lemma backed_onRunStart n dir ok (r : Reporter) :
  spec_gates_backed r -> spec_gates_backed (fst (onRunStart n dir ok r)).
Proof.
  intros Hb. unfold onRunStart. destruct ok; cbn [fst].
  - apply backed_resume_all. revert Hb. apply backed_grow; [reflexivity|reflexivity].
  - revert Hb. apply backed_grow; [reflexivity|reflexivity].
Qed.

Lemma backed_onTestCaseStart test info now (r : Reporter) :
  spec_gates_backed r -> spec_gates_backed (fst (onTestCaseStart test info now r)).
Proof.
  intros Hb. unfold onTestCaseStart.
  destruct (specInfo r !! _) as [spec|] eqn:Hspec; cbn zeta beta iota.
  - destruct (prop_get _ _); cbn [fst].
    + apply backed_put; [rewrite Hspec; eauto|exact Hb].
    + apply backed_other_gate; [discriminate|].
      apply backed_put; [rewrite Hspec; eauto|exact Hb].
  - destruct (prop_get _ _); cbn [fst].
    + apply backed_put; [cbn; rewrite lookup_insert_eq; eauto|].
      apply backed_new_spec, Hb.
    + apply backed_other_gate; [discriminate|].
      apply backed_put; [cbn; rewrite lookup_insert_eq; eauto|].
      apply backed_new_spec, Hb.
Qed.

Lemma backed_onTestCaseResult test res (r : Reporter) :
  spec_gates_backed r -> spec_gates_backed (fst (onTestCaseResult test res r)).
Proof.
  intros Hb. unfold onTestCaseResult.
  destruct (await (specInfoDeferred r !! _)); cbn [fst]; try exact Hb.
  set (r1 := ensureCaseGate _ r).
  assert (H1 : spec_gates_backed r1).
  { subst r1. unfold ensureCaseGate. destruct (testCaseDeferred r !! _); [exact Hb|].
    apply backed_other_gate; [discriminate|exact Hb]. }
  destruct (await (testCaseDeferred r1 !! _)); cbn [fst]; try exact H1.
  destruct (specInfo r1 !! _) eqn:Hspec; cbn [fst]; [|exact H1].
  apply backed_other_gate; [discriminate|].
  apply backed_put; [rewrite Hspec; eauto|exact H1].
Qed.

Lemma backed_onTestFileResult test testResult fs_ok (r : Reporter) :
  spec_gates_backed r ->
  spec_gates_backed (fst (onTestFileResult test testResult fs_ok r)).
Proof.
  intros Hb. unfold onTestFileResult.
  pose proof (settle_all_frame test (projectOf r (testToSpecName test))
                (testToSpecName test) (TestResult.testResults testResult) (r, []))
    as [Hframe Hdom].
  cbn zeta in Hframe, Hdom. cbn [fst] in Hframe, Hdom.
  destruct (fold_left _ _ _) as [r1 l]. cbn [fst] in Hframe, Hdom.
  assert (H1 : spec_gates_backed r1).
  { revert Hb. apply backed_grow; [rewrite Hframe; reflexivity|exact Hdom]. }
  destruct (Promise_all l); cbn [fst]; try exact H1.
  destruct (specInfo r1 !! _); cbn [fst]; [|exact H1].
  destruct fs_ok; cbn [fst]; [|exact H1].
  revert H1. apply backed_grow; [reflexivity|reflexivity].
Qed.

Lemma reporter_ok_handle (e : Event) (r : Reporter) :
  reporter_ok r -> reporter_ok (fst (handle e r)).
Proof.
  intros [Hg Hb]. split; [apply gates_ok_handle, Hg|].
  destruct e; simpl.
  - apply backed_onRunStart, Hb.
  - apply backed_onTestFileStart, Hb.
  - apply backed_onTestCaseStart, Hb.
  - apply backed_onTestCaseResult, Hb.
  - apply backed_onTestFileResult, Hb.
  - exact Hb.
Qed.

Lemma reporter_ok_run (events : list Event) (r : Reporter) :
  reporter_ok r -> reporter_ok (run events r).
Proof.
  revert r. induction events as [|e events IH]; intros r Hok; simpl.
  - exact Hok.
  - apply IH, reporter_ok_handle, Hok.
Qed.

Lemma reporter_ok_newReporter (globalConfig_rootDir : string) (env : option Z) :
  reporter_ok (newReporter globalConfig_rootDir env).
Proof.
  split; [apply gates_ok_newReporter|].
  intros key. cbn. rewrite !lookup_empty.
  split; intros [? ?]; discriminate.
Qed.

Lemma await_ok (t : GateTable) (key : string) (r : Reporter) :
  gates_ok r -> is_Some (gates t r !! key) -> await (gates t r !! key) = Fulfilled.
Proof.
  intros Hok [d Hd]. rewrite Hd. destruct (Hok _ _ _ Hd) as [Hres _].
  unfold await, settled. rewrite Hres. reflexivity.
Qed.

(** ** Case results and case starts on a sound reporter *)

Lemma onTestCaseResult_run test res (r : Reporter) :
  let specName := testToSpecName test in
  let projectId := projectOf r specName in
  let specKey := getSpecKey projectId specName in
  let testId := getTestCaseId test (TestCaseResult.ancestorTitles res)
                  (TestCaseResult.title res) in
  let testCaseKey := getTestCaseKey projectId specName testId in
  reporter_ok r ->
  is_Some (specInfoDeferred r !! specKey) ->
  exists spec,
    specInfo r !! specKey = Some spec
    /\ onTestCaseResult test res r =
       (createResolved ResultGates testCaseKey
          (set_specInfo
             (<[specKey :=
                  SpecInfo.with_testCaseList
                    (prop_set testCaseKey
                       (TestCase.with_result (fun l => (l ++ [res])%list)
                          (default (skippedTestCase test testId res [])
                             (prop_get testCaseKey (SpecInfo.testCaseList spec)))))
                    spec]> (specInfo r))
             (ensureCaseGate testCaseKey r)), Fulfilled).
Proof.
  cbn zeta. intros [Hg Hb] Hgate.
  destruct (proj1 (Hb _) Hgate) as [spec Hspec]. exists spec. split; [exact Hspec|].
  unfold onTestCaseResult.
  pose proof (await_ok SpecGates _ r Hg Hgate) as Hspecgate.
  cbn [gates] in Hspecgate. rewrite Hspecgate.
  set (key := getTestCaseKey _ _ _).
  assert (Hawait : await (testCaseDeferred (ensureCaseGate key r) !! key) = Fulfilled).
  { unfold ensureCaseGate. destruct (testCaseDeferred r !! key) as [d|] eqn:Hd.
    - apply (await_ok CaseGates key r Hg). cbn [gates]. rewrite Hd. eauto.
    - cbn. rewrite lookup_insert_eq. reflexivity. }
  rewrite Hawait.
  assert (Hsame : specInfo (ensureCaseGate key r) = specInfo r).
  { unfold ensureCaseGate. destruct (testCaseDeferred r !! key); reflexivity. }
  rewrite Hsame, Hspec.
  destruct (prop_get key (SpecInfo.testCaseList spec)); reflexivity.
Qed.

Lemma testCaseAt_put (r : Reporter) (specKey testCaseKey key' : string)
    (spec : SpecInfo.t) (testCase : TestCase.t) (m : gmap string SpecInfo.t) (r0 : Reporter) :
  specInfo r0 = <[specKey := SpecInfo.with_testCaseList (prop_set testCaseKey testCase) spec]> m ->
  testCaseAt r0 specKey key' =
    if decide (testCaseKey = key') then Some testCase
    else prop_get key' (SpecInfo.testCaseList spec).
Proof.
  intros H. unfold testCaseAt. rewrite H, lookup_insert_eq. cbn.
  destruct (decide (testCaseKey = key')) as [->|Hne].
  - apply prop_get_set_eq.
  - apply prop_get_set_ne, Hne.
Qed.

(** C3, as the code has it: a case result that finds a sound reporter with
    the per-spec gate of its spec and no test case record under its key is
    fulfilled and adds exactly one record, which holds exactly this one
    attempt.  The record always has the mode skip and the worker index -1,
    whatever the status of the result, so its report entry has the expected
    status Skipped; the other records are left as they are. *)
Theorem onTestCaseResult_without_start test res (r : Reporter) :
  let specName := testToSpecName test in
  let projectId := projectOf r specName in
  let specKey := getSpecKey projectId specName in
  let testId := getTestCaseId test (TestCaseResult.ancestorTitles res)
                  (TestCaseResult.title res) in
  let testCaseKey := getTestCaseKey projectId specName testId in
  reporter_ok r ->
  is_Some (specInfoDeferred r !! specKey) ->
  testCaseAt r specKey testCaseKey = None ->
  exists r' spec spec' testCase,
    onTestCaseResult test res r = (r', Fulfilled)
    /\ specInfo r !! specKey = Some spec
    /\ specInfo r' !! specKey = Some spec'
    /\ length (SpecInfo.testCaseList spec') = S (length (SpecInfo.testCaseList spec))
    /\ testCaseAt r' specKey testCaseKey = Some testCase
    /\ TestCase.result testCase = [res]
    /\ TestCase.mode testCase = BlockMode.skip
    /\ workerIndex (TestCase.worker testCase) = -1
    /\ (forall start startTime,
          ReportTest.expectedStatus (reportTest start startTime specName testCase)
          = TestExpectedStatus.Skipped)
    /\ (forall key', key' <> testCaseKey ->
          testCaseAt r' specKey key' = testCaseAt r specKey key')
    /\ (forall specKey', specKey' <> specKey ->
          specInfo r' !! specKey' = specInfo r !! specKey').
Proof.
  cbn zeta. intros Hok Hgate Hnone.
  destruct (onTestCaseResult_run test res r Hok Hgate) as (spec & Hspec & Hrun).
  cbn zeta in Hrun.
  set (specKey := getSpecKey _ _) in *.
  set (key := getTestCaseKey _ _ _) in *.
  unfold testCaseAt in Hnone. rewrite Hspec in Hnone.
  rewrite Hnone in Hrun. cbn [default] in Hrun.
  set (testCase := TestCase.with_result _ _) in Hrun.
  set (spec' := SpecInfo.with_testCaseList _ spec) in Hrun.
  set (r' := createResolved _ _ _) in Hrun.
  assert (Hr' : specInfo r' = <[specKey := spec']> (specInfo r))
    by reflexivity.
  exists r', spec, spec', testCase.
  split; [exact Hrun|].
  split; [exact Hspec|].
  split; [rewrite Hr'; apply lookup_insert_eq|].
  split; [apply prop_set_length_new, Hnone|].
  split.
  { rewrite (testCaseAt_put r specKey key key spec testCase _ r' Hr').
    apply decide_True. reflexivity. }
  split; [reflexivity|]. split; [reflexivity|]. split; [reflexivity|].
  split; [reflexivity|]. split.
  - intros key' Hne.
    rewrite (testCaseAt_put r specKey key key' spec testCase _ r' Hr').
    rewrite decide_False by congruence.
    unfold testCaseAt. rewrite Hspec. reflexivity.
  - intros specKey' Hne. rewrite Hr', lookup_insert_ne by congruence. reflexivity.
Qed.

(** ** Gates over a run *)

Lemma await_Fulfilled_is_Some (gate : option Deferred) :
  await gate = Fulfilled -> is_Some gate.
Proof. destruct gate; [eauto|discriminate]. Qed.

Lemma onTestCaseResult_Fulfilled_gate test res (r : Reporter) :
  snd (onTestCaseResult test res r) = Fulfilled ->
  is_Some (specInfoDeferred r
             !! getSpecKey (projectOf r (testToSpecName test)) (testToSpecName test)).
Proof.
  unfold onTestCaseResult. intros H. apply await_Fulfilled_is_Some.
  destruct (await (specInfoDeferred r !! _)); [reflexivity|discriminate H..].
Qed.

Lemma gates_ensureCaseGate_kept (t : GateTable) (key key' : string) (r : Reporter) :
  forall d, gates t r !! key' = Some d -> gates t (ensureCaseGate key r) !! key' = Some d.
Proof.
  intros d Hd. unfold ensureCaseGate.
  destruct (testCaseDeferred r !! key) as [d0|] eqn:Hkey; [exact Hd|].
  rewrite gates_createResolved. destruct (decide (t = CaseGates)) as [->|]; [|exact Hd].
  destruct (decide (key = key')) as [->|Hne].
  - cbn [gates] in Hd. congruence.
  - rewrite lookup_insert_ne by assumption. exact Hd.
Qed.

Lemma nextGate_ensureCaseGate (key : string) (r : Reporter) :
  (nextGate r <= nextGate (ensureCaseGate key r))%nat.
Proof.
  unfold ensureCaseGate. destruct (testCaseDeferred r !! key); cbn; lia.
Qed.

Lemma gate_replaced_not_kept (t : GateTable) (key : string) (r r' : Reporter)
    (d d' : Deferred) :
  gates t r !! key = Some d -> gates t r' !! key = Some d' ->
  gateId d' <> gateId d -> ~ gate_kept t key r r'.
Proof.
  intros Hd Hd' Hne Hkept. destruct (Hkept d Hd) as (d0 & Hd0 & Hid).
  rewrite Hd' in Hd0. injection Hd0 as <-. contradiction.
Qed.

(** C4, as the code has it: after any sequence of calls every gate in the
    per-spec, per-case and per-case-result tables has been resolved exactly
    once.  Gates are made again for a key, though: a case result that is
    fulfilled stores a new gate, different from every gate stored before,
    under its test-case key in the per-case-result table; it replaces no gate
    of the per-spec and per-case tables.  A case start leaves the per-spec
    table alone when the spec record exists, the per-case table alone when the
    test case record exists, and the per-case-result table alone always. *)
Theorem gates_over_a_run (events : list Event) (globalConfig_rootDir : string)
    (env : option Z) :
  let r := run events (newReporter globalConfig_rootDir env) in
  (forall t key d, gates t r !! key = Some d -> resolveCalls d = 1%nat)
  /\ (forall test res,
        let specName := testToSpecName test in
        let projectId := projectOf r specName in
        let testCaseKey :=
          getTestCaseKey projectId specName
            (getTestCaseId test (TestCaseResult.ancestorTitles res)
               (TestCaseResult.title res)) in
        let r' := fst (onTestCaseResult test res r) in
        snd (onTestCaseResult test res r) = Fulfilled ->
        (exists d, resultsDeferred r' !! testCaseKey = Some d
                   /\ resolveCalls d = 1%nat
                   /\ forall t key d', gates t r !! key = Some d' -> gateId d' <> gateId d)
        /\ (forall key, gate_kept SpecGates key r r' /\ gate_kept CaseGates key r r'))
  /\ (forall test info now,
        let specName := testToSpecName test in
        let projectId := projectOf r specName in
        let specKey := getSpecKey projectId specName in
        let testCaseKey :=
          getTestCaseKey projectId specName
            (getTestCaseId test (TestCaseStartInfo.ancestorTitles info)
               (TestCaseStartInfo.title info)) in
        let r' := fst (onTestCaseStart test info now r) in
        (is_Some (specInfo r !! specKey) -> specInfoDeferred r' = specInfoDeferred r)
        /\ (is_Some (testCaseAt r specKey testCaseKey) ->
            testCaseDeferred r' = testCaseDeferred r)
        /\ resultsDeferred r' = resultsDeferred r).
Proof.
  intros r.
  assert (Hok : reporter_ok r) by apply reporter_ok_run, reporter_ok_newReporter.
  split; [|split].
  - intros t key d Hd. destruct Hok as [Hg _]. apply (Hg _ _ _ Hd).
  - intros test res. cbn zeta. intros Hful.
    pose proof (onTestCaseResult_Fulfilled_gate test res r Hful) as Hgate.
    destruct (onTestCaseResult_run test res r Hok Hgate) as (spec & Hspec & Hrun).
    cbn zeta in Hrun. rewrite Hrun. cbn [fst].
    set (key := getTestCaseKey _ _ _) in *.
    split.
    + eexists. split; [cbn; apply lookup_insert_eq|]. split; [reflexivity|].
      intros t k d' Hd'. destruct Hok as [Hg _].
      destruct (Hg _ _ _ Hd') as [_ Hlt]. cbn.
      pose proof (nextGate_ensureCaseGate key r). lia.
    + intros k. split; intros d Hd; exists d; (split; [|reflexivity]).
      * rewrite gates_createResolved, decide_False by discriminate.
        rewrite gates_set_specInfo. apply gates_ensureCaseGate_kept, Hd.
      * rewrite gates_createResolved, decide_False by discriminate.
        rewrite gates_set_specInfo. apply gates_ensureCaseGate_kept, Hd.
  - intros test info now. cbn zeta. unfold onTestCaseStart, testCaseAt.
    destruct (specInfo r !! _) as [spec|]; cbn zeta beta iota.
    + destruct (prop_get _ _); cbn [fst].
      * repeat split; reflexivity.
      * split; [reflexivity|]. split; [|reflexivity].
        intros [? ?]; discriminate.
    + split; [intros [? ?]; discriminate|].
      split; [intros [? ?]; discriminate|].
      destruct (prop_get _ _); reflexivity.
Qed.

(** ** Keys and attempts of one logical test *)

Lemma append_assoc (s1 s2 s3 : string) : (s1 +:+ s2) +:+ s3 = s1 +:+ (s2 +:+ s3).
Proof.
  induction s1 as [|c s1 IH]; [reflexivity|].
  change (String c ((s1 +:+ s2) +:+ s3) = String c (s1 +:+ (s2 +:+ s3))).
  f_equal. exact IH.
Qed.

Lemma getTestCaseKey_getSpecKey (projectId specName testId : string) :
  getTestCaseKey projectId specName testId
  = getSpecKey projectId specName +:+ ":" +:+ testId.
Proof.
  unfold getTestCaseKey, getSpecKey. rewrite !append_assoc. reflexivity.
Qed.

Lemma case_event_step test ancestorTitles title (e : Event) (r : Reporter)
    (projectId : string) :
  let specName := testToSpecName test in
  let specKey := getSpecKey projectId specName in
  let testCaseKey :=
    getTestCaseKey projectId specName (getTestCaseId test ancestorTitles title) in
  projectOf r specName = projectId ->
  describes test ancestorTitles title e ->
  reporter_ok r ->
  is_Some (specInfoDeferred r !! specKey) \/ startsWithCaseStart [e] ->
  snd (handle e r) = Fulfilled
  /\ testCaseKeyOf e r = Some testCaseKey
  /\ projectBySpecMap (fst (handle e r)) = projectBySpecMap r
  /\ is_Some (specInfoDeferred (fst (handle e r)) !! specKey)
  /\ is_Some (testCaseAt (fst (handle e r)) specKey testCaseKey)
  /\ attemptsAt (fst (handle e r)) specKey testCaseKey
     = (attemptsAt r specKey testCaseKey + countResults [e])%nat.
Proof.
  cbn zeta. intros Hp Hdesc Hok Hgate.
  destruct e as [| |test' info now|test' res| |]; try contradiction;
    destruct Hdesc as (-> & <- & <-).
  - (* case start: the spec record is there or is made *)
    destruct Hok as [_ Hb]. clear Hgate.
    cbn [handle testCaseKeyOf]. unfold onTestCaseStart. rewrite Hp.
    unfold attemptsAt, testCaseAt.
    set (specKey := getSpecKey _ _). set (key := getTestCaseKey _ _ _).
    destruct (specInfo r !! specKey) as [spec|] eqn:Hspec; cbn zeta beta iota.
    + assert (Hgate : is_Some (specInfoDeferred r !! specKey))
        by (apply Hb; rewrite Hspec; eauto).
      destruct (prop_get key (SpecInfo.testCaseList spec)) as [testCase|] eqn:Hget;
        cbn [fst snd specInfo set_specInfo createResolved projectBySpecMap
             specInfoDeferred];
        rewrite lookup_insert_eq; cbn [SpecInfo.testCaseList SpecInfo.with_testCaseList];
        rewrite prop_get_set_eq; cbn; repeat split; eauto; lia.
    + cbn [prop_get SpecInfo.testCaseList emptySpecInfo].
      cbn [fst snd specInfo set_specInfo createResolved projectBySpecMap
           specInfoDeferred].
      rewrite !lookup_insert_eq. cbn [SpecInfo.testCaseList SpecInfo.with_testCaseList].
      rewrite prop_get_set_eq. cbn. repeat split; eauto.
  - (* case result: the per-spec gate has to be there *)
    destruct Hgate as [Hgate|[]].
    rewrite <- Hp in Hgate.
    destruct (onTestCaseResult_run test res r Hok Hgate) as (spec & Hspec & Hrun).
    cbn zeta in Hrun. rewrite Hp in Hrun, Hspec, Hgate.
    cbn [handle testCaseKeyOf]. rewrite Hrun, Hp.
    set (key := getTestCaseKey _ _ _).
    unfold attemptsAt, testCaseAt. rewrite Hspec.
    cbn [fst snd specInfo set_specInfo createResolved projectBySpecMap specInfoDeferred].
    rewrite lookup_insert_eq. cbn [SpecInfo.testCaseList SpecInfo.with_testCaseList].
    rewrite prop_get_set_eq.
    assert (Hm : projectBySpecMap (ensureCaseGate key r) = projectBySpecMap r
                 /\ specInfoDeferred (ensureCaseGate key r) = specInfoDeferred r).
    { unfold ensureCaseGate. destruct (testCaseDeferred r !! key); split; reflexivity. }
    destruct Hm as [Hm1 Hm2]. rewrite Hm2.
    repeat split; eauto.
    destruct (prop_get key (SpecInfo.testCaseList spec)); cbn; rewrite ?length_app; cbn; lia.
Qed.

Lemma case_events_run test ancestorTitles title (events : list Event) (r : Reporter)
    (projectId : string) :
  let specName := testToSpecName test in
  let specKey := getSpecKey projectId specName in
  let testCaseKey :=
    getTestCaseKey projectId specName (getTestCaseId test ancestorTitles title) in
  projectOf r specName = projectId ->
  Forall (describes test ancestorTitles title) events ->
  reporter_ok r ->
  is_Some (specInfoDeferred r !! specKey) \/ startsWithCaseStart events ->
  Forall (fun s => s = Fulfilled) (settlements events r)
  /\ Forall (fun k => k = Some testCaseKey) (keysUsed events r)
  /\ (events <> [] -> is_Some (testCaseAt (run events r) specKey testCaseKey))
  /\ attemptsAt (run events r) specKey testCaseKey
     = (attemptsAt r specKey testCaseKey + countResults events)%nat.
Proof.
  cbn zeta. intros Hp Hall. revert r Hp.
  induction Hall as [|e events He _ IH]; intros r Hp Hok Hgate.
  - split; [constructor|]. split; [constructor|]. split; [congruence|].
    unfold countResults. cbn [run List.filter length]. lia.
  - assert (Hgate1 : is_Some (specInfoDeferred r
                                !! getSpecKey projectId (testToSpecName test))
                     \/ startsWithCaseStart [e]).
    { destruct Hgate as [Hgate|Hstart]; [left; exact Hgate|].
      right. destruct e; exact Hstart. }
    destruct (case_event_step test ancestorTitles title e r projectId Hp He Hok Hgate1)
      as (Hs & Hk & Hmap & Hgates & Hsome & Hatt).
    destruct (IH (fst (handle e r))) as (IHs & IHk & IHsome & IHatt).
    + unfold projectOf. rewrite Hmap. exact Hp.
    + apply reporter_ok_handle, Hok.
    + left. exact Hgates.
    + cbn [settlements keysUsed run]. split; [constructor; assumption|].
      split; [constructor; assumption|]. split.
      * intros _. destruct events as [|e' events']; [exact Hsome|].
        apply IHsome. discriminate.
      * rewrite IHatt, Hatt. unfold countResults. cbn [List.filter].
        destruct e; cbn [length]; lia.
Qed.

(** Key stability where the spec is known: the spec key is the project id, a
    colon and the spec name, and the test-case key is the spec key, a colon
    and the test id.  The test id comes
    from the path and the chain of titles only, so the case-start and
    case-result calls of one logical test, whatever their attempt numbers and
    outcomes, are all fulfilled under one and the same key, and the record
    under that key ends with as many attempts as there were case results.  The
    calls reach a sound reporter that has no record of the test yet; the spec
    has been started, or the first of the calls is a case start. *)
Theorem key_stability test ancestorTitles title (events : list Event) (r : Reporter) :
  let specName := testToSpecName test in
  let projectId := projectOf r specName in
  let specKey := getSpecKey projectId specName in
  let testCaseKey :=
    getTestCaseKey projectId specName (getTestCaseId test ancestorTitles title) in
  reporter_ok r ->
  is_Some (specInfoDeferred r !! specKey) \/ startsWithCaseStart events ->
  testCaseAt r specKey testCaseKey = None ->
  Forall (describes test ancestorTitles title) events ->
  (0 < countResults events)%nat ->
  specKey = projectId +:+ ":" +:+ specName
  /\ testCaseKey = specKey +:+ ":" +:+ getTestCaseId test ancestorTitles title
  /\ Forall (fun s => s = Fulfilled) (settlements events r)
  /\ Forall (fun k => k = Some testCaseKey) (keysUsed events r)
  /\ exists testCase,
       testCaseAt (run events r) specKey testCaseKey = Some testCase
       /\ length (TestCase.result testCase) = countResults events.
Proof.
  cbn zeta. intros Hok Hgate Hnone Hall Hpos.
  split; [reflexivity|]. split; [apply getTestCaseKey_getSpecKey|].
  destruct (case_events_run test ancestorTitles title events r _ eq_refl Hall Hok Hgate)
    as (Hs & Hk & Hsome & Hatt).
  split; [exact Hs|]. split; [exact Hk|].
  destruct Hsome as [testCase HtestCase].
  { intros ->. cbn in Hpos. lia. }
  exists testCase. split; [exact HtestCase|].
  unfold attemptsAt in Hatt. rewrite HtestCase, Hnone in Hatt. exact Hatt.
Qed.

(** ** The report of a spec file *)

(** C8: in the report a fulfilled [onTestFileResult] writes, the [retries]
    field of every test is the number of its attempts plus one, and the
    attempts of an entry are as many as the results of its record; so a test
    with a single attempt is reported with two retries. *)
Theorem retries_is_attempts_plus_one test testResult fs_ok (r r' : Reporter) :
  onTestFileResult test testResult fs_ok r = (r', Fulfilled) ->
  let specName := testToSpecName test in
  exists dir name report spec,
    files r' = (dir, name, report) :: files r
    /\ specInfo r' !! getSpecKey (projectOf r specName) specName = Some spec
    /\ Forall2 (fun testCase entry =>
                  ReportTest.retries entry = (length (TestCase.result testCase) + 1)%nat
                  /\ length (ReportTest.attempts entry) = length (TestCase.result testCase))
         (Object_values (SpecInfo.testCaseList spec))
         (InstanceReport.results_tests report)
    /\ Forall (fun entry =>
                 ReportTest.retries entry = (length (ReportTest.attempts entry) + 1)%nat
                 /\ (length (ReportTest.attempts entry) = 1%nat ->
                     ReportTest.retries entry = 2%nat))
         (InstanceReport.results_tests report).
Proof.
  intros H. cbn zeta.
  destruct (onTestFileResult_fulfilled _ _ _ _ _ H) as (spec & Hspec & Hfiles).
  eexists _, _, _, spec. split; [exact Hfiles|]. split; [exact Hspec|].
  cbn [InstanceReport.results_tests instanceReport]. split.
  - apply Forall2_fmap_r, Forall_Forall2_diag, Forall_forall.
    intros testCase _. split; [reflexivity|apply reportTest_attempts_length].
  - apply Forall_map, Forall_forall. intros testCase _.
    cbn beta. rewrite reportTest_attempts_length.
    cbn [ReportTest.retries reportTest]. lia.
Qed.

(** C10: in the report a fulfilled [onTestFileResult] writes, [stats.pending]
    is 0 and [stats.skipped] is the sum of the pending and the todo counts of
    the runner's result for the file. *)
Theorem stats_pending_and_skipped test testResult fs_ok (r r' : Reporter) :
  onTestFileResult test testResult fs_ok r = (r', Fulfilled) ->
  exists dir name report,
    files r' = (dir, name, report) :: files r
    /\ Stats.pending (InstanceReport.results_stats report) = 0%nat
    /\ Stats.skipped (InstanceReport.results_stats report)
       = (TestResult.numPendingTests testResult
          + TestResult.numTodoTests testResult)%nat.
Proof.
  intros H.
  destruct (onTestFileResult_fulfilled _ _ _ _ _ H) as (spec & _ & Hfiles).
  eexists _, _, _. split; [exact Hfiles|]. split; reflexivity.
Qed.

(** ** File starts *)

(** Once the report directory is there, [onTestFileStart] stores an empty spec
    record and a new gate under the spec key, whatever was stored before. *)
Lemma onTestFileStart_stores_empty test (r : Reporter) :
  settled (reportDirDeferred r) = true ->
  let specKey := getSpecKey (getProjectId test) (testToSpecName test) in
  let r' := fst (onTestFileStart test r) in
  snd (onTestFileStart test r) = Fulfilled
  /\ specInfo r' !! specKey
     = Some (emptySpecInfo (JEST_WORKER_ID r) (getProjectId test) (testToSpecName test))
  /\ specInfoDeferred r' !! specKey = Some (resolve (newDeferred (nextGate r)))
  /\ forall testCaseKey, testCaseAt r' specKey testCaseKey = None.
Proof.
  intros Hdir. cbn zeta. unfold onTestFileStart, await.
  cbn [reportDirDeferred set_projectBySpecMap]. rewrite Hdir. cbn [fst snd].
  split; [reflexivity|]. unfold onTestFileStart_resume, testCaseAt. cbn.
  rewrite !lookup_insert_eq. repeat split; reflexivity.
Qed.

(** Without a per-spec gate [onTestCaseResult] is rejected and changes
    nothing. *)
Lemma onTestCaseResult_rejected test res (r : Reporter) :
  specInfoDeferred r
    !! getSpecKey (projectOf r (testToSpecName test)) (testToSpecName test) = None ->
  onTestCaseResult test res r = (r, Rejected).
Proof. intros H. unfold onTestCaseResult. rewrite H. reflexivity. Qed.

(** ** More on the status reducer *)

Lemma everySame_Forall (s : string) (l : list string) :
  everySame (Some s) l = true -> Forall (fun x => x = s) l.
Proof.
  induction l as [|x l IH]; cbn; [constructor|].
  rewrite andb_true_iff. intros [Hx Hl].
  constructor; [apply String.eqb_eq, Hx|apply IH, Hl].
Qed.

Lemma getRawTestStatus_cases (l : list TestCaseResult.t) :
  (exists r s, head l = Some r /\ TestCaseResult.status r = s
               /\ Forall (fun r => TestCaseResult.status r = s) l
               /\ getRawTestStatus l = matchStatus (Some s))
  \/ getRawTestStatus l = TestExpectedStatus.Failed.
Proof.
  unfold getRawTestStatus. destruct l as [|r l]; [right; reflexivity|].
  cbn [map head].
  destruct (everySame _ _) eqn:Hsame; [|right; reflexivity].
  left. exists r, (TestCaseResult.status r). repeat split.
  apply everySame_Forall in Hsame.
  change (TestCaseResult.status r :: map TestCaseResult.status l)
    with (map TestCaseResult.status (r :: l)) in Hsame.
  apply Forall_map in Hsame. exact Hsame.
Qed.

Lemma matchStatus_Passed (s : string) :
  matchStatus (Some s) = TestExpectedStatus.Passed -> s = "passed".
Proof.
  unfold matchStatus.
  destruct (_ || _)%bool; [discriminate|].
  destruct (String.eqb_spec s "passed"); [auto|].
  destruct (String.eqb s "failed"); discriminate.
Qed.

Lemma matchStatus_Skipped (s : string) :
  matchStatus (Some s) = TestExpectedStatus.Skipped ->
  s ∈ ["skipped"; "todo"; "pending"; "disabled"].
Proof.
  rewrite matchStatus_spec. unfold rawStatus_spec.
  destruct (decide (s ∈ _)); [auto|].
  destruct (decide (s = "passed")); discriminate.
Qed.

Lemma matchStatus_range (first : option string) :
  matchStatus first = TestExpectedStatus.Skipped
  \/ matchStatus first = TestExpectedStatus.Passed
  \/ matchStatus first = TestExpectedStatus.Failed.
Proof.
  destruct first as [s|]; cbn; [|auto].
  destruct (_ || _)%bool; [auto|].
  destruct (String.eqb s "passed"); [auto|].
  destruct (String.eqb s "failed"); auto.
Qed.

Lemma getRawTestStatus_range (l : list TestCaseResult.t) :
  getRawTestStatus l = TestExpectedStatus.Skipped
  \/ getRawTestStatus l = TestExpectedStatus.Passed
  \/ getRawTestStatus l = TestExpectedStatus.Failed.
Proof.
  unfold getRawTestStatus. destruct (everySame _ _); [apply matchStatus_range|auto].
Qed.

(** The [state] of a report entry is Passed exactly when the test case has
    an attempt and every attempt has the status passed. *)
Theorem getTestCaseStatus_Passed_iff (attempts : list TestCaseResult.t) :
  getTestCaseStatus attempts = TestState.Passed
  <-> attempts <> [] /\ Forall (fun r => TestCaseResult.status r = "passed") attempts.
Proof.
  split.
  - unfold getTestCaseStatus. intros H.
    assert (Hraw : getRawTestStatus attempts = TestExpectedStatus.Passed).
    { destruct (getRawTestStatus_range attempts) as [Hr|[Hr|Hr]];
        rewrite Hr in H; [discriminate H|exact Hr|discriminate H]. }
    destruct (getRawTestStatus_cases attempts) as [(r & s & Hhead & _ & Hall & Hm)|Hf];
      [|congruence].
    rewrite Hraw in Hm. symmetry in Hm. apply matchStatus_Passed in Hm. subst s.
    split; [|exact Hall]. intros ->. discriminate Hhead.
  - intros [Hne Hall]. unfold getTestCaseStatus.
    rewrite (getRawTestStatus_uniform "passed" attempts Hne Hall). reflexivity.
Qed.

(** The [state] of a report entry is Pending exactly when the test case has
    an attempt and all attempts share one status out of skipped, todo, pending
    and disabled; the member Skipped of [TestState] is never used for it. *)
Theorem getTestCaseStatus_Pending_iff (attempts : list TestCaseResult.t) :
  (getTestCaseStatus attempts = TestState.Pending
   <-> attempts <> []
       /\ exists kind, kind ∈ ["skipped"; "todo"; "pending"; "disabled"]
                       /\ Forall (fun r => TestCaseResult.status r = kind) attempts)
  /\ getTestCaseStatus attempts <> TestState.Skipped.
Proof.
  split; [split|].
  - unfold getTestCaseStatus. intros H.
    assert (Hraw : getRawTestStatus attempts = TestExpectedStatus.Skipped).
    { destruct (getRawTestStatus_range attempts) as [Hr|[Hr|Hr]];
        rewrite Hr in H; [exact Hr|discriminate H|discriminate H]. }
    destruct (getRawTestStatus_cases attempts) as [(r & s & Hhead & _ & Hall & Hm)|Hf];
      [|congruence].
    rewrite Hraw in Hm. symmetry in Hm. apply matchStatus_Skipped in Hm.
    split; [intros ->; discriminate Hhead|]. exists s. split; assumption.
  - intros (Hne & kind & Hkind & Hall). unfold getTestCaseStatus.
    rewrite (getRawTestStatus_uniform kind attempts Hne Hall).
    unfold rawStatus_spec. rewrite decide_True by exact Hkind. reflexivity.
  - unfold getTestCaseStatus.
    destruct (getRawTestStatus_range attempts) as [Hr|[Hr|Hr]]; rewrite Hr; discriminate.
Qed.

(** Attempts that do not all have the same status give the raw status Failed
    and the [state] Failed, whatever their order. *)
Theorem getRawTestStatus_mixed (attempts : list TestCaseResult.t)
    (r1 r2 : TestCaseResult.t) :
  r1 ∈ attempts -> r2 ∈ attempts ->
  TestCaseResult.status r1 <> TestCaseResult.status r2 ->
  getRawTestStatus attempts = TestExpectedStatus.Failed
  /\ getTestCaseStatus attempts = TestState.Failed.
Proof.
  intros H1 H2 Hne.
  assert (Hraw : getRawTestStatus attempts = TestExpectedStatus.Failed).
  { destruct (getRawTestStatus_cases attempts) as [(r & s & _ & _ & Hall & _)|Hf];
      [|exact Hf].
    rewrite Forall_forall in Hall.
    exfalso. apply Hne. rewrite (Hall r1 H1), (Hall r2 H2). reflexivity. }
  split; [exact Hraw|]. unfold getTestCaseStatus. rewrite Hraw. reflexivity.
Qed.

(** A flaky entry never failing is possible: an entry is flagged flaky as soon
    as it has two attempts and the last one passed.  Its [state] is Passed when
    every attempt passed and Failed as soon as one attempt did not. *)
Theorem isFlaky_state (attempts : list TestCaseResult.t) :
  isFlaky attempts = true ->
  (Forall (fun r => TestCaseResult.status r = "passed") attempts ->
   getTestCaseStatus attempts = TestState.Passed)
  /\ (~ Forall (fun r => TestCaseResult.status r = "passed") attempts ->
      getTestCaseStatus attempts = TestState.Failed).
Proof.
  intros Hflaky. apply isFlaky_iff in Hflaky.
  destruct Hflaky as (Hlen & rl & Hlast & Hpassed).
  split.
  - intros Hall. apply getTestCaseStatus_Passed_iff. split; [|exact Hall].
    intros ->. cbn in Hlen. lia.
  - intros Hnot. apply not_Forall_Exists in Hnot; [|intros r; apply _].
    apply Exists_exists in Hnot. destruct Hnot as (r & Hr & Hstatus).
    apply (getRawTestStatus_mixed attempts r rl); [exact Hr| |congruence].
    apply last_Some_elem_of, Hlast.
Qed.

(** ** The attempts and start times of one logical test, in order *)

Lemma case_event_content test ancestorTitles title (e : Event) (r : Reporter)
    (projectId : string) :
  let specName := testToSpecName test in
  let specKey := getSpecKey projectId specName in
  let testCaseKey :=
    getTestCaseKey projectId specName (getTestCaseId test ancestorTitles title) in
  projectOf r specName = projectId ->
  describes test ancestorTitles title e ->
  reporter_ok r ->
  is_Some (specInfoDeferred r !! specKey) \/ startsWithCaseStart [e] ->
  resultsAt (fst (handle e r)) specKey testCaseKey
  = (resultsAt r specKey testCaseKey ++ resultsOf [e])%list
  /\ timestampsAt (fst (handle e r)) specKey testCaseKey
     = (timestampsAt r specKey testCaseKey ++ startTimesOf [e])%list.
Proof.
  cbn zeta. intros Hp Hdesc Hok Hgate.
  destruct e as [| |test' info now|test' res| |]; try contradiction;
    destruct Hdesc as (-> & <- & <-).
  - clear Hgate. cbn [handle]. unfold onTestCaseStart. rewrite Hp.
    unfold resultsAt, timestampsAt, testCaseAt.
    set (specKey := getSpecKey _ _). set (key := getTestCaseKey _ _ _).
    destruct (specInfo r !! specKey) as [spec|] eqn:Hspec; cbn zeta beta iota.
    + destruct (prop_get key (SpecInfo.testCaseList spec)) as [testCase|] eqn:Hget;
        cbn [fst specInfo set_specInfo createResolved];
        rewrite lookup_insert_eq; cbn [SpecInfo.testCaseList SpecInfo.with_testCaseList];
        rewrite prop_get_set_eq; cbn; rewrite ?app_nil_r; split; reflexivity.
    + cbn [prop_get SpecInfo.testCaseList emptySpecInfo].
      cbn [fst specInfo set_specInfo createResolved].
      rewrite !lookup_insert_eq. cbn [SpecInfo.testCaseList SpecInfo.with_testCaseList].
      rewrite prop_get_set_eq. cbn. split; reflexivity.
  - destruct Hgate as [Hgate|[]].
    rewrite <- Hp in Hgate.
    destruct (onTestCaseResult_run test res r Hok Hgate) as (spec & Hspec & Hrun).
    cbn zeta in Hrun. rewrite Hp in Hrun, Hspec.
    cbn [handle]. rewrite Hrun.
    set (key := getTestCaseKey _ _ _).
    unfold resultsAt, timestampsAt, testCaseAt. rewrite Hspec.
    cbn [fst specInfo set_specInfo createResolved].
    rewrite lookup_insert_eq. cbn [SpecInfo.testCaseList SpecInfo.with_testCaseList].
    rewrite prop_get_set_eq.
    destruct (prop_get key (SpecInfo.testCaseList spec)); cbn;
      rewrite ?app_nil_r; split; reflexivity.
Qed.

Lemma case_events_content test ancestorTitles title (events : list Event)
    (r : Reporter) (projectId : string) :
  let specName := testToSpecName test in
  let specKey := getSpecKey projectId specName in
  let testCaseKey :=
    getTestCaseKey projectId specName (getTestCaseId test ancestorTitles title) in
  projectOf r specName = projectId ->
  Forall (describes test ancestorTitles title) events ->
  reporter_ok r ->
  is_Some (specInfoDeferred r !! specKey) \/ startsWithCaseStart events ->
  resultsAt (run events r) specKey testCaseKey
  = (resultsAt r specKey testCaseKey ++ resultsOf events)%list
  /\ timestampsAt (run events r) specKey testCaseKey
     = (timestampsAt r specKey testCaseKey ++ startTimesOf events)%list.
Proof.
  cbn zeta. intros Hp Hall. revert r Hp.
  induction Hall as [|e events He _ IH]; intros r Hp Hok Hgate.
  - cbn. rewrite !app_nil_r. split; reflexivity.
  - assert (Hgate1 : is_Some (specInfoDeferred r
                                !! getSpecKey projectId (testToSpecName test))
                     \/ startsWithCaseStart [e]).
    { destruct Hgate as [Hgate|Hstart]; [left; exact Hgate|].
      right. destruct e; exact Hstart. }
    destruct (case_event_step test ancestorTitles title e r projectId Hp He Hok Hgate1)
      as (_ & _ & Hmap & Hgates & _ & _).
    destruct (case_event_content test ancestorTitles title e r projectId Hp He Hok Hgate1)
      as (Hres & Hts).
    destruct (IH (fst (handle e r))) as (IHres & IHts).
    + unfold projectOf. rewrite Hmap. exact Hp.
    + apply reporter_ok_handle, Hok.
    + left. exact Hgates.
    + cbn [run]. rewrite IHres, IHts, Hres, Hts, <- !app_assoc.
      unfold resultsOf, startTimesOf. cbn [flat_map]. rewrite !app_nil_r.
      split; reflexivity.
Qed.

(** The record of a test keeps what its calls bring in the order they arrive:
    after the case-start and case-result calls of one logical test, its
    attempts are the results of the case-result calls and its timestamps are
    the start times of the case-start calls, each in arrival order, however
    the two kinds of calls interleave. *)
Theorem attempts_in_arrival_order test ancestorTitles title (events : list Event)
    (r : Reporter) :
  let specName := testToSpecName test in
  let projectId := projectOf r specName in
  let specKey := getSpecKey projectId specName in
  let testCaseKey :=
    getTestCaseKey projectId specName (getTestCaseId test ancestorTitles title) in
  reporter_ok r ->
  is_Some (specInfoDeferred r !! specKey) \/ startsWithCaseStart events ->
  testCaseAt r specKey testCaseKey = None ->
  Forall (describes test ancestorTitles title) events ->
  events <> [] ->
  exists testCase,
    testCaseAt (run events r) specKey testCaseKey = Some testCase
    /\ TestCase.result testCase = resultsOf events
    /\ TestCase.timestamps testCase = startTimesOf events.
Proof.
  cbn zeta. intros Hok Hgate Hnone Hall Hne.
  destruct (case_events_run test ancestorTitles title events r _ eq_refl Hall Hok Hgate)
    as (_ & _ & Hsome & _).
  destruct (case_events_content test ancestorTitles title events r _ eq_refl Hall Hok Hgate)
    as (Hres & Hts).
  destruct (Hsome Hne) as [testCase HtestCase].
  exists testCase. split; [exact HtestCase|].
  unfold resultsAt, timestampsAt in Hres, Hts.
  rewrite HtestCase, Hnone in Hres, Hts. split; assumption.
Qed.

(** ** What the finalization does to the records *)

Lemma settleDeclaredTest_step test projectId specName (r : Reporter)
    (l : list Settled) (x : TestCaseResult.t) (spec : SpecInfo.t) :
  let specKey := getSpecKey projectId specName in
  let testId := getTestCaseId test (TestCaseResult.ancestorTitles x)
                  (TestCaseResult.title x) in
  let key := getTestCaseKey projectId specName testId in
  let out := settleDeclaredTest test projectId specName (r, l) x in
  specInfo r !! specKey = Some spec ->
  exists spec',
    specInfo (fst out) !! specKey = Some spec'
    /\ (forall k, prop_get k (SpecInfo.testCaseList spec')
                  = if decide (k = key)
                    then Some (default (skippedTestCase test testId x [x])
                                 (prop_get key (SpecInfo.testCaseList spec)))
                    else prop_get k (SpecInfo.testCaseList spec))
    /\ snd out
       = (l ++ [match prop_get key (SpecInfo.testCaseList spec) with
                | None => Fulfilled
                | Some _ => await (resultsDeferred r !! key)
                end])%list
    /\ resultsDeferred (fst out) = resultsDeferred r
    /\ (forall specKey', specKey' <> specKey ->
          specInfo (fst out) !! specKey' = specInfo r !! specKey').
Proof.
  cbn zeta. intros Hspec. unfold settleDeclaredTest. rewrite Hspec.
  set (key := getTestCaseKey _ _ _).
  destruct (prop_get key (SpecInfo.testCaseList spec)) as [testCase|] eqn:Hget;
    cbn [fst snd].
  - exists spec. split; [exact Hspec|]. split.
    + intros k. destruct (decide (k = key)) as [->|]; [exact Hget|reflexivity].
    + repeat split; reflexivity.
  - eexists. split; [cbn; apply lookup_insert_eq|]. split.
    + intros k. cbn [SpecInfo.testCaseList SpecInfo.with_testCaseList default].
      destruct (decide (k = key)) as [->|Hne].
      * apply prop_get_set_eq.
      * apply prop_get_set_ne. congruence.
    + split; [reflexivity|]. split; [reflexivity|].
      intros specKey' Hne. cbn. apply lookup_insert_ne. congruence.
Qed.

Lemma settle_all_records test projectId specName (l : list TestCaseResult.t)
    (r0 : Reporter) (l0 : list Settled) (spec0 : SpecInfo.t) :
  let specKey := getSpecKey projectId specName in
  let keyOf x := getTestCaseKey projectId specName
                   (getTestCaseId test (TestCaseResult.ancestorTitles x)
                      (TestCaseResult.title x)) in
  let out := fold_left (settleDeclaredTest test projectId specName) l (r0, l0) in
  specInfo r0 !! specKey = Some spec0 ->
  (exists spec',
     specInfo (fst out) !! specKey = Some spec'
     /\ forall k, prop_get k (SpecInfo.testCaseList spec')
                  = match prop_get k (SpecInfo.testCaseList spec0) with
                    | Some testCase => Some testCase
                    | None =>
                        (fun x => skippedTestCase test
                                    (getTestCaseId test (TestCaseResult.ancestorTitles x)
                                       (TestCaseResult.title x)) x [x])
                          <$> List.find (fun x => String.eqb (keyOf x) k) l
                    end)
  /\ (forall specKey', specKey' <> specKey ->
        specInfo (fst out) !! specKey' = specInfo r0 !! specKey')
  /\ (forall x testCase,
        x ∈ l -> prop_get (keyOf x) (SpecInfo.testCaseList spec0) = Some testCase ->
        resultsDeferred r0 !! keyOf x = None -> Rejected ∈ snd out)
  /\ exists more, snd out = (l0 ++ more)%list.
Proof.
  cbn zeta. revert r0 l0 spec0.
  induction l as [|y l IH]; intros r0 l0 spec0 Hspec; cbn [fold_left].
  - split; [|split; [|split]].
    + exists spec0. split; [exact Hspec|]. intros k.
      destruct (prop_get k _); reflexivity.
    + reflexivity.
    + intros x testCase Hx. apply elem_of_nil in Hx. contradiction.
    + exists []. cbn. rewrite app_nil_r. reflexivity.
  - destruct (settleDeclaredTest_step test projectId specName r0 l0 y spec0 Hspec)
      as (spec1 & Hspec1 & Hget1 & Hsnd1 & Hres1 & Hother1).
    cbn zeta in *.
    destruct (settleDeclaredTest test projectId specName (r0, l0) y) as [r1 l1] eqn:Hstep.
    cbn [fst snd] in *.
    destruct (IH r1 l1 spec1 Hspec1) as ((spec' & Hspec' & Hget') & Hother' & Hrej' & more & Hmore).
    split; [|split; [|split]].
    + exists spec'. split; [exact Hspec'|]. intros k. rewrite Hget', Hget1. cbn [List.find].
      match goal with
      | |- context [String.eqb ?a k] => destruct (String.eqb_spec a k) as [<-|Hk]
      end.
      * rewrite decide_True by reflexivity.
        destruct (prop_get _ (SpecInfo.testCaseList spec0)); reflexivity.
      * rewrite decide_False by (intros Heq; apply Hk; symmetry; exact Heq).
        reflexivity.
    + intros specKey' Hne. rewrite Hother', Hother1 by assumption. reflexivity.
    + intros x testCase Hx Hget Hnone. apply elem_of_cons in Hx.
      destruct Hx as [->|Hx].
      * rewrite Hmore, Hsnd1, Hget, Hnone.
        cbn [await]. rewrite !elem_of_app, list_elem_of_singleton. auto.
      * apply (Hrej' x testCase Hx); [|rewrite Hres1; exact Hnone].
        rewrite Hget1. case_decide as Heq; [|exact Hget].
        rewrite <- Heq, Hget. reflexivity.
    + eexists. rewrite Hmore, Hsnd1, <- app_assoc. reflexivity.
Qed.

Lemma settle_all_no_spec test projectId specName (l : list TestCaseResult.t)
    (r0 : Reporter) (l0 : list Settled) :
  specInfo r0 !! getSpecKey projectId specName = None ->
  let out := fold_left (settleDeclaredTest test projectId specName) l (r0, l0) in
  fst out = r0 /\ (Rejected ∈ l0 \/ l <> [] -> Rejected ∈ snd out).
Proof.
  cbn zeta. revert l0. induction l as [|y l IH]; intros l0 Hnone; cbn [fold_left].
  - split; [reflexivity|]. intros [H|H]; [exact H|congruence].
  - assert (Hstep : settleDeclaredTest test projectId specName (r0, l0) y
                    = (r0, (l0 ++ [Rejected])%list))
      by (unfold settleDeclaredTest; rewrite Hnone; reflexivity).
    rewrite Hstep.
    destruct (IH (l0 ++ [Rejected])%list Hnone) as [Hfst Hrej].
    split; [exact Hfst|]. intros _. apply Hrej. left.
    rewrite elem_of_app, list_elem_of_singleton. auto.
Qed.

Lemma Promise_all_Rejected (l : list Settled) :
  Rejected ∈ l -> Promise_all l = Rejected.
Proof.
  intros H. unfold Promise_all.
  replace (existsb _ l) with true; [reflexivity|].
  symmetry. apply existsb_exists. exists Rejected. split; [|reflexivity].
  apply list_elem_of_In, H.
Qed.

(** [onTestFileResult] in terms of the pass over the declared tests. *)
Lemma onTestFileResult_unfold test testResult fs_ok (r : Reporter) :
  let specName := testToSpecName test in
  let projectId := projectOf r specName in
  let pass := fold_left (settleDeclaredTest test projectId specName)
                (TestResult.testResults testResult) (r, []) in
  let out := onTestFileResult test testResult fs_ok r in
  specInfo (fst out) = specInfo (fst pass)
  /\ (snd out = Fulfilled -> Promise_all (snd pass) = Fulfilled)
  /\ (Promise_all (snd pass) = Rejected ->
      snd out = Rejected /\ files (fst out) = files r
      /\ processedSpecsCount (fst out) = processedSpecsCount r).
Proof.
  cbn zeta. unfold onTestFileResult.
  pose proof (settle_all_frame test (projectOf r (testToSpecName test))
                (testToSpecName test) (TestResult.testResults testResult) (r, []))
    as [Hframe _].
  cbn zeta in Hframe. cbn [fst] in Hframe.
  destruct (fold_left _ _ _) as [r1 l]. cbn [fst snd] in *.
  destruct (Promise_all l) eqn:Hall.
  - destruct (specInfo r1 !! _); [destruct fs_ok|]; cbn [fst snd];
      (split; [reflexivity|]); (split; [reflexivity|discriminate]).
  - cbn [fst snd]. split; [reflexivity|]. split; [discriminate|].
    intros _. rewrite Hframe. repeat split; reflexivity.
  - cbn [fst snd]. split; [reflexivity|]. split; discriminate.
Qed.

Lemma prop_get_values {A} (key : string) (v : A) (obj : list (string * A)) :
  prop_get key obj = Some v -> v ∈ Object_values obj.
Proof.
  induction obj as [|[k w] rest IH]; cbn; [discriminate|].
  destruct (String.eqb k key).
  - intros [= ->]. apply list_elem_of_here.
  - intros H. apply list_elem_of_further, IH, H.
Qed.

Lemma find_elem_of_is_Some {A} (f : A -> bool) (l : list A) (x : A) :
  x ∈ l -> f x = true -> is_Some (List.find f l).
Proof.
  intros Hx Hf. destruct (List.find f l) eqn:Hfind; [eauto|].
  apply list_elem_of_In in Hx.
  rewrite (find_none f l Hfind x Hx) in Hf. discriminate.
Qed.

(** Every test that the file-level result declares is in the report that a
    fulfilled [onTestFileResult] writes: it has a record under its key, made
    on the spot if none was there, and the report has the entry of that
    record. *)
Theorem declared_tests_reported test testResult fs_ok (r r' : Reporter) :
  onTestFileResult test testResult fs_ok r = (r', Fulfilled) ->
  let specName := testToSpecName test in
  let specKey := getSpecKey (projectOf r specName) specName in
  exists dir name report,
    files r' = (dir, name, report) :: files r
    /\ forall x, x ∈ TestResult.testResults testResult ->
         exists testCase,
           testCaseAt r' specKey (declaredKey test r x) = Some testCase
           /\ reportTest (TestResult.perfStats_start testResult)
                (TestResult.perfStats_start testResult) specName testCase
              ∈ InstanceReport.results_tests report.
Proof.
  intros H. cbn zeta.
  destruct (onTestFileResult_fulfilled _ _ _ _ _ H) as (spec & Hspec & Hfiles).
  destruct (onTestFileResult_unfold test testResult fs_ok r) as (Hinfo & Hful & _).
  cbn zeta in *. rewrite H in Hinfo, Hful. cbn [fst snd] in Hinfo, Hful.
  specialize (Hful eq_refl).
  eexists _, _, _. split; [exact Hfiles|]. intros x Hx.
  cbn [InstanceReport.results_tests instanceReport].
  assert (Hrec : is_Some (prop_get (declaredKey test r x) (SpecInfo.testCaseList spec))).
  { destruct (specInfo r !! getSpecKey (projectOf r (testToSpecName test))
                (testToSpecName test)) as [spec0|] eqn:Hspec0.
    - destruct (settle_all_records test _ _ (TestResult.testResults testResult)
                  r [] spec0 Hspec0) as ((spec' & Hspec' & Hget) & _).
      cbn zeta in Hspec', Hget. rewrite <- Hinfo, Hspec in Hspec'.
      injection Hspec' as <-. rewrite Hget.
      destruct (prop_get _ (SpecInfo.testCaseList spec0)); [eauto|].
      apply fmap_is_Some. apply (find_elem_of_is_Some _ _ x Hx).
      apply String.eqb_refl.
    - destruct (settle_all_no_spec test _ _ (TestResult.testResults testResult)
                  r [] Hspec0) as [_ Hrej].
      cbn zeta in Hrej. rewrite Promise_all_Rejected in Hful; [discriminate|].
      apply Hrej. right. intros Hnil. rewrite Hnil in Hx.
      apply elem_of_nil in Hx. exact Hx. }
  destruct Hrec as [testCase HtestCase]. exists testCase. split.
  - unfold testCaseAt. rewrite Hspec. exact HtestCase.
  - apply list_elem_of_fmap_2. apply (prop_get_values _ _ _ HtestCase).
Qed.

(** A declared test without a record is recorded by [onTestFileResult] as
    skipped: the record is made from the first declared result with its key,
    holds that result as its only attempt, and is reported with the expected
    status Skipped, two retries, the start time of the file and the worker
    index -1.  Records that exist are left as they are. *)
Theorem onTestFileResult_synthesizes test testResult fs_ok (r : Reporter)
    (spec0 : SpecInfo.t) (x : TestCaseResult.t) :
  let specName := testToSpecName test in
  let specKey := getSpecKey (projectOf r specName) specName in
  let testId := getTestCaseId test (TestCaseResult.ancestorTitles x)
                  (TestCaseResult.title x) in
  let r' := fst (onTestFileResult test testResult fs_ok r) in
  let start := TestResult.perfStats_start testResult in
  specInfo r !! specKey = Some spec0 ->
  List.find (fun y => String.eqb (declaredKey test r y) (declaredKey test r x))
    (TestResult.testResults testResult) = Some x ->
  testCaseAt r specKey (declaredKey test r x) = None ->
  testCaseAt r' specKey (declaredKey test r x)
  = Some (skippedTestCase test testId x [x])
  /\ (let entry := reportTest start start specName (skippedTestCase test testId x [x]) in
      ReportTest.expectedStatus entry = TestExpectedStatus.Skipped
      /\ ReportTest.retries entry = 2%nat
      /\ ReportTest._t entry = start
      /\ map (fun a => (Attempt.workerIndex a, Attempt.startTime a))
           (ReportTest.attempts entry) = [(-1, start)])
  /\ (forall key testCase,
        testCaseAt r specKey key = Some testCase ->
        testCaseAt r' specKey key = Some testCase).
Proof.
  cbn zeta. intros Hspec0 Hfind Hnone. unfold declaredKey in *.
  destruct (onTestFileResult_unfold test testResult fs_ok r) as (Hinfo & _ & _).
  cbn zeta in Hinfo.
  destruct (settle_all_records test _ _ (TestResult.testResults testResult)
              r [] spec0 Hspec0) as ((spec' & Hspec' & Hget) & _).
  cbn zeta in Hspec', Hget.
  unfold testCaseAt in *. rewrite Hinfo, Hspec'. rewrite Hspec0 in Hnone.
  split; [|split].
  - rewrite Hget, Hnone, Hfind. reflexivity.
  - repeat split; reflexivity.
  - intros key testCase. rewrite Hspec0, Hget. intros ->. reflexivity.
Qed.

(** A file result that arrives while a declared test has a record but no
    result gate, because the test was started and its result is still to come,
    does not wait: the call is rejected, no report is written and nothing is
    counted. *)
Theorem onTestFileResult_rejected_without_result test testResult fs_ok (r : Reporter)
    (x : TestCaseResult.t) (testCase : TestCase.t) :
  let specName := testToSpecName test in
  let specKey := getSpecKey (projectOf r specName) specName in
  let out := onTestFileResult test testResult fs_ok r in
  x ∈ TestResult.testResults testResult ->
  testCaseAt r specKey (declaredKey test r x) = Some testCase ->
  resultsDeferred r !! declaredKey test r x = None ->
  snd out = Rejected
  /\ files (fst out) = files r
  /\ processedSpecsCount (fst out) = processedSpecsCount r.
Proof.
  cbn zeta. intros Hx Hrec Hnone.
  destruct (onTestFileResult_unfold test testResult fs_ok r) as (_ & _ & Hrej).
  cbn zeta in Hrej. apply Hrej. apply Promise_all_Rejected.
  unfold testCaseAt in Hrec.
  destruct (specInfo r !! _) as [spec0|] eqn:Hspec0; [|discriminate].
  destruct (settle_all_records test _ _ (TestResult.testResults testResult)
              r [] spec0 Hspec0) as (_ & _ & Hin & _).
  cbn zeta in Hin. apply (Hin x testCase Hx Hrec Hnone).
Qed.

(** The case handlers and [onTestFileResult] work on the record of their own
    spec only: the records stored under every other spec key stay as they
    are. *)
Theorem handlers_keep_other_specs (e : Event) (r : Reporter) (specKey specKey' : string) :
  specKeyOf e r = Some specKey ->
  specKey' <> specKey ->
  specInfo (fst (handle e r)) !! specKey' = specInfo r !! specKey'.
Proof.
  intros Hkey Hne.
  destruct e as [| |test info now|test res|test testResult ok|];
    try discriminate Hkey; cbn [specKeyOf] in Hkey; injection Hkey as <-; cbn [handle].
  - unfold onTestCaseStart.
    destruct (specInfo r !! _) as [spec|]; cbn zeta beta iota;
      destruct (prop_get _ _); cbn [fst specInfo set_specInfo createResolved];
      rewrite ?lookup_insert_ne by congruence; reflexivity.
  - unfold onTestCaseResult.
    destruct (await (specInfoDeferred r !! _)); cbn [fst]; try reflexivity.
    assert (Hsame : forall key, specInfo (ensureCaseGate key r) = specInfo r).
    { intros key. unfold ensureCaseGate. destruct (testCaseDeferred r !! key); reflexivity. }
    destruct (await (testCaseDeferred _ !! _)); cbn [fst]; rewrite ?Hsame; try reflexivity.
    destruct (specInfo r !! _); cbn [fst specInfo set_specInfo createResolved];
      rewrite ?Hsame; [|reflexivity].
    rewrite lookup_insert_ne by congruence. reflexivity.
  - destruct (onTestFileResult_unfold test testResult ok r) as (Hinfo & _ & _).
    cbn zeta in Hinfo. rewrite Hinfo.
    destruct (specInfo r !! getSpecKey (projectOf r (testToSpecName test))
                (testToSpecName test)) as [spec0|] eqn:Hspec0.
    + destruct (settle_all_records test _ _ (TestResult.testResults testResult)
                  r [] spec0 Hspec0) as (_ & Hother & _).
      apply Hother, Hne.
    + destruct (settle_all_no_spec test _ _ (TestResult.testResults testResult)
                  r [] Hspec0) as [Hfst _].
      cbn zeta in Hfst. rewrite Hfst. reflexivity.
Qed.

(** ** Reports written over a run *)

Lemma resume_all_frame (waiting : list Test) (r : Reporter) :
  let r' := fold_left (fun r test => onTestFileStart_resume test r) waiting r in
  files r' = files r /\ processedSpecsCount r' = processedSpecsCount r
  /\ specsCount r' = specsCount r
  /\ awaitingReportDir r' = awaitingReportDir r
  /\ reportDirDeferred r' = reportDirDeferred r
  /\ reportDir r' = reportDir r /\ instancesDir r' = instancesDir r.
Proof.
  cbn zeta. revert r. induction waiting as [|test waiting IH]; intros r; cbn [fold_left].
  - repeat split; reflexivity.
  - destruct (IH (onTestFileStart_resume test r)) as (H1 & H2 & H3 & H4 & H5 & H6 & H7).
    rewrite H1, H2, H3, H4, H5, H6, H7. repeat split; reflexivity.
Qed.

Lemma handle_files (e : Event) (r : Reporter) :
  exists new,
    files (fst (handle e r)) = (new ++ files r)%list
    /\ processedSpecsCount (fst (handle e r)) = (processedSpecsCount r + length new)%nat
    /\ (length new <= countFileResults [e])%nat.
Proof.
  destruct e as [n dir ok|test|test info now|test res|test testResult ok|]; cbn [handle].
  - exists []. unfold onRunStart. destruct ok; cbn [fst].
    + match goal with
      | |- context [fold_left ?f ?waiting ?r0] =>
          destruct (resume_all_frame waiting r0) as (H1 & H2 & _)
      end.
      cbn zeta in H1, H2. rewrite H1, H2. cbn. repeat split; lia.
    + cbn. repeat split; lia.
  - exists []. unfold onTestFileStart. destruct (await _); cbn; repeat split; lia.
  - exists []. unfold onTestCaseStart.
    destruct (specInfo r !! _); cbn zeta beta iota; destruct (prop_get _ _);
      cbn; repeat split; lia.
  - exists []. unfold onTestCaseResult.
    assert (Hsame : forall key, files (ensureCaseGate key r) = files r
                                /\ processedSpecsCount (ensureCaseGate key r)
                                   = processedSpecsCount r).
    { intros key. unfold ensureCaseGate.
      destruct (testCaseDeferred r !! key); split; reflexivity. }
    destruct (await (specInfoDeferred r !! _)); cbn [fst];
      [|cbn; repeat split; lia..].
    destruct (await (testCaseDeferred _ !! _)); cbn [fst];
      [|destruct (Hsame (getTestCaseKey (projectOf r (testToSpecName test))
                           (testToSpecName test)
                           (getTestCaseId test (TestCaseResult.ancestorTitles res)
                              (TestCaseResult.title res)))) as [-> ->];
        cbn; repeat split; lia..].
    destruct (Hsame (getTestCaseKey (projectOf r (testToSpecName test))
                       (testToSpecName test)
                       (getTestCaseId test (TestCaseResult.ancestorTitles res)
                          (TestCaseResult.title res)))) as [Hf Hp].
    destruct (specInfo _ !! _); cbn [fst]; cbn [files processedSpecsCount createResolved
                                                  set_specInfo];
      rewrite Hf, Hp; cbn; repeat split; lia.
  - unfold onTestFileResult.
    pose proof (settle_all_frame test (projectOf r (testToSpecName test))
                  (testToSpecName test) (TestResult.testResults testResult) (r, []))
      as [Hframe _].
    cbn zeta in Hframe. cbn [fst] in Hframe.
    destruct (fold_left _ _ _) as [r1 l]. cbn [fst] in Hframe.
    assert (Hf : files r1 = files r /\ processedSpecsCount r1 = processedSpecsCount r)
      by (rewrite Hframe; split; reflexivity).
    destruct Hf as [Hf Hp].
    destruct (Promise_all l); cbn [fst];
      [|exists []; rewrite Hf, Hp; cbn; repeat split; lia..].
    destruct (specInfo r1 !! _) as [spec|]; cbn [fst];
      [|exists []; rewrite Hf, Hp; cbn; repeat split; lia].
    destruct ok; cbn [fst]; [|exists []; rewrite Hf, Hp; cbn; repeat split; lia].
    eexists [_]. cbn. rewrite Hf, Hp. repeat split; lia.
  - exists []. cbn. repeat split; lia.
Qed.

Lemma disk_after_writes (r r' : Reporter) (new : list (string * string * InstanceReport.t)) :
  files r' = (new ++ files r)%list ->
  disk r' = foldr (fun file onDisk => <[join file.1.1 file.1.2 := file.2]> onDisk)
              (disk r) new.
Proof. intros H. unfold disk. rewrite H. apply foldr_app. Qed.

Lemma writes_size (new : list (string * string * InstanceReport.t))
    (onDisk : gmap string InstanceReport.t) :
  (size (foldr (fun file onDisk => <[join file.1.1 file.1.2 := file.2]> onDisk)
           onDisk new) <= size onDisk + length new)%nat.
Proof.
  induction new as [|file new IH]; cbn [foldr length]; [lia|].
  rewrite map_size_insert. destruct (_ !! _); cbn; lia.
Qed.

Lemma writes_keep_paths (new : list (string * string * InstanceReport.t))
    (onDisk : gmap string InstanceReport.t) (path : string) :
  is_Some (onDisk !! path) ->
  is_Some (foldr (fun file onDisk => <[join file.1.1 file.1.2 := file.2]> onDisk)
             onDisk new !! path).
Proof.
  intros H. induction new as [|file new IH]; cbn [foldr]; [exact H|].
  rewrite lookup_insert_is_Some.
  destruct (decide (join file.1.1 file.1.2 = path)); auto.
Qed.

(** Reports written and reports counted: over any sequence of calls the
    counter of processed specs grows by exactly the number of report files
    written, and at most one is written per [onTestFileResult] call.  A write
    replaces what its path held: a path that holds a report goes on holding
    one, the newest write is what its path holds afterwards, and the number of
    report files on disk grows by at most the number of writes, so it never
    overtakes a counter that it did not exceed before. *)
Theorem reports_written_and_counted (events : list Event) (r : Reporter) :
  exists new,
    files (run events r) = (new ++ files r)%list
    /\ processedSpecsCount (run events r) = (processedSpecsCount r + length new)%nat
    /\ (length new <= countFileResults events)%nat
    /\ (size (disk (run events r)) <= size (disk r) + length new)%nat
    /\ (forall path, is_Some (disk r !! path) -> is_Some (disk (run events r) !! path))
    /\ (forall dir name content,
          head new = Some (dir, name, content) ->
          disk (run events r) !! join dir name = Some content)
    /\ ((size (disk r) <= processedSpecsCount r)%nat ->
        (size (disk (run events r)) <= processedSpecsCount (run events r))%nat).
Proof.
  assert (H : exists new,
             files (run events r) = (new ++ files r)%list
             /\ processedSpecsCount (run events r)
                = (processedSpecsCount r + length new)%nat
             /\ (length new <= countFileResults events)%nat).
  { revert r. induction events as [|e events IH]; intros r; cbn [run].
    - exists []. cbn. repeat split; lia.
    - destruct (handle_files e r) as (new1 & Hf1 & Hp1 & Hl1).
      destruct (IH (fst (handle e r))) as (new2 & Hf2 & Hp2 & Hl2).
      exists (new2 ++ new1)%list. rewrite Hf2, Hf1, Hp2, Hp1, app_assoc, length_app.
      split; [reflexivity|]. split; [lia|].
      unfold countFileResults in *. cbn [List.filter] in *.
      destruct e; cbn [length] in *; lia. }
  destruct H as (new & Hf & Hp & Hl). exists new.
  pose proof (disk_after_writes r (run events r) new Hf) as Hdisk.
  pose proof (writes_size new (disk r)) as Hsize.
  split; [exact Hf|]. split; [exact Hp|]. split; [exact Hl|].
  rewrite Hdisk. split; [exact Hsize|]. split; [|split].
  - intros path. apply writes_keep_paths.
  - intros dir name content Hhead. destruct new as [|file new']; [discriminate|].
    cbn in Hhead. injection Hhead as ->. cbn [foldr fst snd]. apply lookup_insert_eq.
  - intros Hle. rewrite Hp. lia.
Qed.

(** ** The start of the run and the file starts that wait for it *)

Lemma freshlyStarted_resume (test : Test) (r : Reporter) (specKey : string) :
  freshlyStarted r specKey \/ specKey = getSpecKey (getProjectId test) (testToSpecName test) ->
  freshlyStarted (onTestFileStart_resume test r) specKey.
Proof.
  unfold freshlyStarted, onTestFileStart_resume. cbn.
  destruct (decide (getSpecKey (getProjectId test) (testToSpecName test) = specKey))
    as [<-|Hne].
  - intros _. rewrite !lookup_insert_eq. split; eauto.
  - intros [H|H]; [|congruence]. rewrite !lookup_insert_ne by assumption. exact H.
Qed.

Lemma freshlyStarted_resume_all (waiting : list Test) (r : Reporter) (specKey : string) :
  freshlyStarted r specKey
  \/ (exists test, test ∈ waiting
                   /\ specKey = getSpecKey (getProjectId test) (testToSpecName test)) ->
  freshlyStarted (fold_left (fun r test => onTestFileStart_resume test r) waiting r)
    specKey.
Proof.
  revert r. induction waiting as [|test waiting IH]; intros r H; cbn [fold_left].
  - destruct H as [H|(test & Hin & _)]; [exact H|].
    apply elem_of_nil in Hin. contradiction.
  - apply IH. destruct H as [H|(test' & Hin & Hkey)].
    + left. apply freshlyStarted_resume. left. exact H.
    + apply elem_of_cons in Hin. destruct Hin as [->|Hin].
      * left. apply freshlyStarted_resume. right. exact Hkey.
      * right. exists test'. split; assumption.
Qed.

(** A run start whose folders could be made resolves the gate of the report
    directory, sets the directories and the number of specs, and lets every
    file start that was waiting continue: none is left waiting, and each of
    their specs has an empty record and a per-spec gate afterwards. *)
Theorem onRunStart_resumes_file_starts (numTotalTestSuites : nat)
    (uniqueDirName : string) (r : Reporter) :
  let out := onRunStart numTotalTestSuites uniqueDirName true r in
  snd out = Fulfilled
  /\ settled (reportDirDeferred (fst out)) = true
  /\ awaitingReportDir (fst out) = []
  /\ specsCount (fst out) = numTotalTestSuites
  /\ reportDir (fst out) = join (rootDir r) uniqueDirName
  /\ instancesDir (fst out) = join (join (rootDir r) uniqueDirName) "instances"
  /\ forall test, test ∈ awaitingReportDir r ->
       freshlyStarted (fst out) (getSpecKey (getProjectId test) (testToSpecName test)).
Proof.
  cbn zeta. unfold onRunStart. cbn [fst snd].
  match goal with
  | |- context [fold_left ?f ?waiting ?r0] =>
      destruct (resume_all_frame waiting r0) as (_ & _ & H3 & H4 & H5 & H6 & H7);
      pose proof (fun specKey => freshlyStarted_resume_all waiting r0 specKey) as Hfresh
  end.
  cbn zeta in *. rewrite H3, H4, H5, H6, H7.
  split; [reflexivity|]. split; [reflexivity|]. split; [reflexivity|].
  split; [reflexivity|]. split; [reflexivity|]. split; [reflexivity|].
  intros test Hin. apply Hfresh. right. exists test. split; [exact Hin|reflexivity].
Qed.

(** A run start whose folders could not be made is rejected and leaves the
    gate of the report directory as it was.  While that gate is unresolved a
    file start only notes the project of the spec and waits: it is pending,
    joins the queue, and stores neither a record nor a gate. *)
Theorem onTestFileStart_waits_for_run_start (numTotalTestSuites : nat)
    (uniqueDirName : string) (test : Test) (r : Reporter) :
  settled (reportDirDeferred r) = false ->
  let r1 := fst (onRunStart numTotalTestSuites uniqueDirName false r) in
  let out := onTestFileStart test r1 in
  snd (onRunStart numTotalTestSuites uniqueDirName false r) = Rejected
  /\ reportDirDeferred r1 = reportDirDeferred r
  /\ snd out = Pending
  /\ awaitingReportDir (fst out) = (awaitingReportDir r ++ [test])%list
  /\ projectBySpecMap (fst out) !! testToSpecName test = Some (getProjectId test)
  /\ specInfo (fst out) = specInfo r
  /\ specInfoDeferred (fst out) = specInfoDeferred r.
Proof.
  intros Hdir. cbn zeta. unfold onRunStart, onTestFileStart, await. cbn [fst snd].
  cbn [reportDirDeferred set_projectBySpecMap set_counts]. rewrite Hdir. cbn.
  rewrite lookup_insert_eq. repeat split; reflexivity.
Qed.

(** ** Keys built by concatenation *)

Lemma append_inj_l (s a b : string) : s +:+ a = s +:+ b -> a = b.
Proof.
  induction s as [|c s IH]; [auto|].
  change (String c (s +:+ a) = String c (s +:+ b) -> a = b).
  intros [= H]. apply IH, H.
Qed.

Lemma append_colon_split (p p' rest rest' : string) :
  includesChar ":" p = false -> includesChar ":" p' = false ->
  p +:+ ":" +:+ rest = p' +:+ ":" +:+ rest' -> p = p' /\ rest = rest'.
Proof.
  revert p'. induction p as [|c p IH]; intros [|c' p'] Hp Hp'.
  - intros [= H]. auto.
  - change ("" +:+ ":" +:+ rest) with (String ":" rest).
    change (String c' p' +:+ ":" +:+ rest') with (String c' (p' +:+ ":" +:+ rest')).
    intros [= <- _]. cbn in Hp'. discriminate Hp'.
  - change ("" +:+ ":" +:+ rest') with (String ":" rest').
    change (String c p +:+ ":" +:+ rest) with (String c (p +:+ ":" +:+ rest)).
    intros [= -> _]. cbn in Hp. discriminate Hp.
  - change (String c p +:+ ":" +:+ rest) with (String c (p +:+ ":" +:+ rest)).
    change (String c' p' +:+ ":" +:+ rest') with (String c' (p' +:+ ":" +:+ rest')).
    intros [= <- H]. cbn in Hp, Hp'. apply orb_false_iff in Hp, Hp'.
    destruct (IH p' (proj2 Hp) (proj2 Hp') H) as [-> ->]. auto.
Qed.

(** Within one spec the test-case key tells the test ids apart, and spec keys
    tell specs apart as long as the project ids have no colon; with a colon in
    a project id two different specs can share a key. *)
Theorem keys_tell_apart :
  (forall projectId specName testId testId',
     getTestCaseKey projectId specName testId = getTestCaseKey projectId specName testId' ->
     testId = testId')
  /\ (forall projectId specName projectId' specName',
        includesChar ":" projectId = false -> includesChar ":" projectId' = false ->
        getSpecKey projectId specName = getSpecKey projectId' specName' ->
        projectId = projectId' /\ specName = specName')
  /\ (exists projectId specName projectId' specName',
        (projectId, specName) <> (projectId', specName')
        /\ getSpecKey projectId specName = getSpecKey projectId' specName').
Proof.
  split; [|split].
  - intros p s t t' H. unfold getTestCaseKey in H.
    repeat (apply append_inj_l in H). exact H.
  - intros p s p' s' Hp Hp' H. apply (append_colon_split p p' s s' Hp Hp' H).
  - exists "a:b", "c", "a", "b:c". split; [discriminate|reflexivity].
Qed.

(** ** The name of the report directory *)



(** ** Discovery options *)

Lemma existsb_eqb_elem_of (key : string) (l : list string) :
  existsb (String.eqb key) l = true <-> key ∈ l.
Proof.
  rewrite existsb_exists. split.
  - intros (x & Hx & Heq). apply String.eqb_eq in Heq. subst x.
    apply list_elem_of_In, Hx.
  - intros H. exists key. split; [apply list_elem_of_In, H|apply String.eqb_refl].
Qed.

Lemma prop_get_omit {A} (object : list (string * A)) (paths : list string) (key : string) :
  prop_get key (omit object paths)
  = if decide (key ∈ paths) then None else prop_get key object.
Proof.
  unfold omit. induction object as [|[k v] rest IH]; cbn [List.filter prop_get fst].
  - destruct (decide _); reflexivity.
  - destruct (existsb (String.eqb k) paths) eqn:Hk; cbn [negb prop_get].
    + rewrite IH. apply existsb_eqb_elem_of in Hk.
      destruct (decide (key ∈ paths)); [reflexivity|].
      destruct (String.eqb_spec k key); [congruence|reflexivity].
    + rewrite IH. destruct (String.eqb_spec k key) as [->|Hne]; [|reflexivity].
      rewrite decide_False; [reflexivity|].
      intros Hin. apply existsb_eqb_elem_of in Hin. congruence.
Qed.

(** [getDiscoveryOptions] drops exactly the ignored options: an ignored name
    is not among the options it returns, every other name keeps its value, and
    applying it a second time changes nothing. *)
Theorem getDiscoveryOptions_lookup {A} (options : list (string * A)) (key : string) :
  prop_get key (getDiscoveryOptions options)
  = (if decide (key ∈ ignoredOptions) then None else prop_get key options)
  /\ getDiscoveryOptions (getDiscoveryOptions options) = getDiscoveryOptions options.
Proof.
  split; [apply prop_get_omit|].
  unfold getDiscoveryOptions, omit.
  induction options as [|[k v] rest IH]; cbn [List.filter]; [reflexivity|].
  destruct (negb (existsb (String.eqb (fst (k, v))) ignoredOptions)) eqn:Hk.
  - cbn [List.filter]. rewrite Hk, IH. reflexivity.
  - exact IH.
Qed.

(** ** The command line given back as text *)

Lemma string_app_nil_r (s : string) : s +:+ "" = s.
Proof.
  induction s as [|c s IH]; [reflexivity|].
  change (String c (s +:+ "") = String c s). rewrite IH. reflexivity.
Qed.

Lemma argvEntryArgs_silent (entry : string * ArgvValue) :
  argvContributes entry = false -> argvEntryArgs entry = [].
Proof.
  destruct entry as [key value]. unfold argvContributes, argvEntryArgs. cbn [fst snd].
  destruct (argvKeySkipped key); [reflexivity|]. cbn [negb andb].
  destruct value as [b|values|text].
  - intros ->. reflexivity.
  - destruct values; [reflexivity|discriminate].
  - discriminate.
Qed.

(** [argvToString] depends only on the entries that contribute: the entries
    named [_] or [$0], those with a dash in the name, the flags that are false
    and the empty arrays can be left out without changing the text.  Every
    argument it prints starts with two dashes and the name of an entry of the
    command line that is not skipped. *)
Theorem argvToString_contributing (argv : list (string * ArgvValue)) :
  argvArgs argv = argvArgs (List.filter argvContributes argv)
  /\ argvToString argv = argvToString (List.filter argvContributes argv)
  /\ Forall (fun arg => exists key rest,
                          arg = "--" +:+ key +:+ rest
                          /\ key ∈ map fst argv
                          /\ argvKeySkipped key = false)
       (argvArgs argv).
Proof.
  assert (H : argvArgs argv = argvArgs (List.filter argvContributes argv)).
  { unfold argvArgs. induction argv as [|entry argv IH]; cbn [flat_map List.filter];
      [reflexivity|].
    destruct (argvContributes entry) eqn:Hc.
    - cbn [flat_map]. rewrite IH. reflexivity.
    - rewrite (argvEntryArgs_silent entry Hc). exact IH. }
  split; [exact H|]. split; [unfold argvToString; rewrite <- H; reflexivity|].
  clear H. unfold argvArgs. induction argv as [|[key value] argv IH]; cbn [flat_map map fst];
    [constructor|].
  apply Forall_app. split.
  - unfold argvEntryArgs. destruct (argvKeySkipped key) eqn:Hkey; [constructor|].
    destruct value as [[|]|values|text].
    + constructor; [|constructor]. exists key, "".
      rewrite string_app_nil_r. repeat split; [apply list_elem_of_here|exact Hkey].
    + constructor.
    + apply Forall_map, Forall_forall. intros val _.
      exists key, ("=" +:+ val). repeat split; [apply list_elem_of_here|exact Hkey].
    + constructor; [|constructor].
      exists key, ("=" +:+ text). repeat split; [apply list_elem_of_here|exact Hkey].
  - eapply Forall_impl; [exact IH|]. cbn beta. intros arg (k & rest & -> & Hin & Hk).
    exists k, rest. repeat split; [apply list_elem_of_further, Hin|exact Hk].
Qed.

(** ** The attempts of a report entry *)

(** Every attempt of a report entry is classified from its own result alone,
    whatever the other attempts are: its [status] is the map of the
    specification applied to the status of the result, its [_s] the coarse
    image of that, its number is [invocations] or 1, it has an [error] exactly
    when the result has a failure message, and it starts at the timestamp
    recorded at its index, or with the file when no such timestamp is recorded
    or the timestamp is 0. *)
Theorem reportTest_attempt (start startTime : Z) (specName : string)
    (testCase : TestCase.t) (index : nat) (result : TestCaseResult.t) :
  TestCase.result testCase !! index = Some result ->
  exists a,
    ReportTest.attempts (reportTest start startTime specName testCase) !! index = Some a
    /\ Attempt.status a = rawStatus_spec (TestCaseResult.status result)
    /\ Attempt._s a
       = statusToCurrentsStatus
           (TestExpectedStatus.value (rawStatus_spec (TestCaseResult.status result)))
    /\ Attempt.attempt a = default 1 (TestCaseResult.invocations result)
    /\ (Attempt.error a = None
        <-> default [] (TestCaseResult.failureMessages result) = [])
    /\ length (Attempt.errors a)
       = length (default [] (TestCaseResult.failureMessages result))
    /\ Attempt.startTime a
       = match TestCase.timestamps testCase !! index with
         | Some ts => if (ts =? 0)%Z then startTime else ts
         | None => startTime
         end.
Proof.
  intros Hres. unfold reportTest. cbn [ReportTest.attempts].
  rewrite list_lookup_imap, Hres. cbn [fmap option_fmap option_map].
  eexists. split; [reflexivity|].
  assert (Hraw : getRawTestStatus [result] = rawStatus_spec (TestCaseResult.status result)).
  { apply getRawTestStatus_uniform; [discriminate|]. repeat constructor. }
  unfold reportAttempt.
  cbn [Attempt.status Attempt._s Attempt.attempt Attempt.error Attempt.errors
       Attempt.startTime].
  unfold getTestCaseStatus. rewrite Hraw.
  split; [reflexivity|]. split; [reflexivity|]. split; [reflexivity|]. split; [|split].
  - destruct (default [] (TestCaseResult.failureMessages result)); cbn;
      split; [reflexivity|reflexivity|discriminate|discriminate].
  - apply length_map.
  - destruct (TestCase.timestamps testCase !! index) as [ts|] eqn:Hts; [|reflexivity].
    destruct (TestCase.timestamps testCase); [discriminate Hts|].
    cbn [length Nat.eqb negb andb]. destruct (ts =? 0)%Z; reflexivity.
Qed.

End Handlers.

(** ** Concrete runs *)

Example scenario_keys :
  getSpecKey "root" "sum.test.ts" = Scenario.specKey
  /\ getTestCaseKey "root" "sum.test.ts"
       (getTestCaseId Scenario.testId Scenario.test ["sum"] "adds")
     = Scenario.testCaseKey.
Proof. split; vm_compute; reflexivity. Qed.

(** C1, the code at the failing input: [onTestFileStart] is no no-op on a
    spec record that case events made.  A file start that waits for the report
    directory has done its bookkeeping, a case start then makes the spec record
    under the same key and puts a test case into it; when the run start lets
    the file start continue, the record is replaced by an empty one and the
    per-spec gate by a new one.  The same happens when a file start is called
    again after a case result: the recorded attempt is gone. *)
Theorem file_start_drops_test_cases :
  let r0 := newReporter "/repo" None in
  let early := [TestFileStart Scenario.test;
                TestCaseStart Scenario.test Scenario.start 5] in
  let before := run Scenario.shortHash Scenario.testId Scenario.pathJoin early r0 in
  let after :=
    run Scenario.shortHash Scenario.testId Scenario.pathJoin (early ++ [RunStart 1 "dir" true])%list r0 in
  let ran :=
    run Scenario.shortHash Scenario.testId Scenario.pathJoin
      [RunStart 1 "dir" true; TestFileStart Scenario.test;
       TestCaseStart Scenario.test Scenario.start 5;
       TestCaseResultEv Scenario.test Scenario.passed] r0 in
  let again := fst (onTestFileStart Scenario.test ran) in
  (TestCase.timestamps <$> testCaseAt before Scenario.specKey Scenario.testCaseKey
   = Some [1000]
   /\ testCaseAt after Scenario.specKey Scenario.testCaseKey = None
   /\ gateId <$> specInfoDeferred before !! Scenario.specKey = Some 1%nat
   /\ gateId <$> specInfoDeferred after !! Scenario.specKey = Some 3%nat)
  /\ (attemptsAt ran Scenario.specKey Scenario.testCaseKey = 1%nat
      /\ snd (onTestFileStart Scenario.test ran) = Fulfilled
      /\ testCaseAt again Scenario.specKey Scenario.testCaseKey = None
      /\ attemptsAt again Scenario.specKey Scenario.testCaseKey = 0%nat).
Proof. vm_compute. repeat split; reflexivity. Qed.

(** C5, the code at the failing input: a case result that arrives before the
    file start and the case start of its spec finds no per-spec gate; reading
    the promise of the missing gate throws, so the call is rejected and nothing
    is recorded.  This holds when no handler was called for the spec at all
    and when the file start was called but still waits for the report
    directory. *)
Theorem case_result_first_is_rejected :
  let r0 := newReporter "/repo" None in
  (settlements Scenario.shortHash Scenario.testId Scenario.pathJoin
     [RunStart 1 "dir" true; TestCaseResultEv Scenario.test Scenario.passed] r0
   = [Fulfilled; Rejected]
   /\ specInfo (run Scenario.shortHash Scenario.testId Scenario.pathJoin
                  [RunStart 1 "dir" true;
                   TestCaseResultEv Scenario.test Scenario.passed] r0) = ∅)
  /\ (settlements Scenario.shortHash Scenario.testId Scenario.pathJoin
        [TestFileStart Scenario.test;
         TestCaseResultEv Scenario.test Scenario.passed] r0
      = [Pending; Rejected]
      /\ specInfo (run Scenario.shortHash Scenario.testId Scenario.pathJoin
                     [TestFileStart Scenario.test;
                      TestCaseResultEv Scenario.test Scenario.passed] r0) = ∅).
Proof. vm_compute. repeat split; reflexivity. Qed.

(** C2 as stated fails: with the attempts failed, failed, passed of a test
    that was started normally the entry is flaky, but its [state] is Failed,
    not Passed, and its [expectedStatus] is Passed, not Failed. *)
Lemma flaky_entry_counterexample :
  let entry := reportTest 900 900 "sum.test.ts" Scenario.flakyCase in
  map TestCaseResult.status (TestCase.result Scenario.flakyCase)
  = ["failed"; "failed"; "passed"]
  /\ ReportTest.isFlaky entry = true
  /\ ReportTest.state entry = TestState.Failed
  /\ ReportTest.expectedStatus entry = TestExpectedStatus.Passed
  /\ ~ (ReportTest.state entry = TestState.Passed
        /\ ReportTest.expectedStatus entry = TestExpectedStatus.Failed).
Proof.
  vm_compute. repeat split; try reflexivity. intros [H _]. discriminate H.
Qed.

Lemma reportTest_flaky_and_single_witness :
  let entry := reportTest 900 900 "sum.test.ts" Scenario.flakyCase in
  map TestCaseResult.status (TestCase.result Scenario.flakyCase)
  = ["failed"; "failed"; "passed"]
  /\ ReportTest.isFlaky entry = true
  /\ getRawTestStatus (TestCase.result Scenario.flakyCase) = TestExpectedStatus.Failed
  /\ ReportTest.state entry = TestState.Failed.
Proof.
  cbn zeta.
  assert (H : map TestCaseResult.status (TestCase.result Scenario.flakyCase)
              = ["failed"; "failed"; "passed"]) by reflexivity.
  split; [exact H|].
  exact (proj1 (reportTest_flaky_and_single 900 900 "sum.test.ts" Scenario.flakyCase) H).
Defined.

Lemma getRawTestStatus_same_kind_witness :
  [Scenario.outcome "focused" 1] <> []
  /\ Forall (fun r => TestCaseResult.status r = "focused") [Scenario.outcome "focused" 1]
  /\ getRawTestStatus [Scenario.outcome "focused" 1] = rawStatus_spec "focused"
  /\ getRawTestStatus [Scenario.outcome "skipped" 1; Scenario.outcome "skipped" 2]
     = TestExpectedStatus.Skipped.
Proof.
  assert (H1 : [Scenario.outcome "focused" 1] <> []) by discriminate.
  assert (H2 : Forall (fun r => TestCaseResult.status r = "focused")
                 [Scenario.outcome "focused" 1]) by (repeat constructor).
  split; [exact H1|]. split; [exact H2|]. split.
  - exact (proj1 (getRawTestStatus_same_kind _ "focused" H1 H2)).
  - refine (proj1 (getRawTestStatus_same_kind
                     [Scenario.outcome "skipped" 1; Scenario.outcome "skipped" 2]
                     "skipped" _ _)); [discriminate|repeat constructor].
Defined.

(** C3 as stated fails: a case result with the status passed, which the
    runner did not mark as skipped, arrives without a case start; its record
    gets the mode skip all the same and is reported with the expected status
    Skipped from the worker -1, not as executed. *)
Lemma case_result_without_start_counterexample :
  let r := run Scenario.shortHash Scenario.testId Scenario.pathJoin
             [RunStart 1 "dir" true; TestFileStart Scenario.test;
              TestCaseResultEv Scenario.test Scenario.passed]
             (newReporter "/repo" None) in
  runnerMarkedSkipped Scenario.passed = false
  /\ TestCase.mode <$> testCaseAt r Scenario.specKey Scenario.testCaseKey
     = Some BlockMode.skip
  /\ (ReportTest.expectedStatus ∘ reportTest 900 900 "sum.test.ts")
       <$> testCaseAt r Scenario.specKey Scenario.testCaseKey
     = Some TestExpectedStatus.Skipped
  /\ ~ (forall testCase,
          testCaseAt r Scenario.specKey Scenario.testCaseKey = Some testCase ->
          TestCase.mode testCase = BlockMode.skip ->
          runnerMarkedSkipped Scenario.passed = true).
Proof.
  cbn zeta. split; [reflexivity|]. split; [vm_compute; reflexivity|].
  split; [vm_compute; reflexivity|].
  intros H.
  destruct (testCaseAt _ Scenario.specKey Scenario.testCaseKey) as [testCase|] eqn:E;
    [|vm_compute in E; discriminate E].
  specialize (H testCase eq_refl).
  assert (Hmode : TestCase.mode testCase = BlockMode.skip).
  { vm_compute in E. injection E as <-. reflexivity. }
  specialize (H Hmode). discriminate H.
Qed.

Lemma onTestCaseResult_without_start_witness :
  let r := run Scenario.shortHash Scenario.testId Scenario.pathJoin
             [RunStart 1 "dir" true; TestFileStart Scenario.test]
             (newReporter "/repo" None) in
  reporter_ok r
  /\ is_Some (specInfoDeferred r !! Scenario.specKey)
  /\ testCaseAt r Scenario.specKey Scenario.testCaseKey = None
  /\ exists r' testCase,
       onTestCaseResult Scenario.testId Scenario.test Scenario.passed r = (r', Fulfilled)
       /\ testCaseAt r' Scenario.specKey Scenario.testCaseKey = Some testCase
       /\ TestCase.result testCase = [Scenario.passed]
       /\ TestCase.mode testCase = BlockMode.skip.
Proof.
  cbn zeta.
  set (r := run _ _ _ _ _).
  assert (Hok : reporter_ok r) by apply reporter_ok_run, reporter_ok_newReporter.
  assert (Hgate : is_Some (specInfoDeferred r !! Scenario.specKey))
    by (vm_compute; eexists; reflexivity).
  assert (Hnone : testCaseAt r Scenario.specKey Scenario.testCaseKey = None)
    by (vm_compute; reflexivity).
  split; [exact Hok|]. split; [exact Hgate|]. split; [exact Hnone|].
  destruct (onTestCaseResult_without_start Scenario.testId Scenario.test
              Scenario.passed r Hok Hgate Hnone)
    as (r' & spec & spec' & testCase & Hrun & _ & _ & _ & Hat & Hres & Hmode & _).
  exists r', testCase. repeat split; assumption.
Defined.

(** C4 as stated fails: the second case result of a test stores a new gate
    under the key that the first case result had given one, so the gate of the
    key is made, and resolved, twice in the run. *)
Lemma results_gate_recreated_counterexample :
  let r1 := run Scenario.shortHash Scenario.testId Scenario.pathJoin
              [RunStart 1 "dir" true; TestFileStart Scenario.test;
               TestCaseStart Scenario.test Scenario.start 5;
               TestCaseResultEv Scenario.test (Scenario.outcome "failed" 1)]
              (newReporter "/repo" None) in
  let r2 := fst (onTestCaseResult Scenario.testId Scenario.test
                   (Scenario.outcome "passed" 2) r1) in
  resultsDeferred r1 !! Scenario.testCaseKey = Some {| gateId := 3; resolveCalls := 1 |}
  /\ resultsDeferred r2 !! Scenario.testCaseKey = Some {| gateId := 4; resolveCalls := 1 |}
  /\ ~ gate_kept ResultGates Scenario.testCaseKey r1 r2.
Proof.
  cbn zeta. split; [vm_compute; reflexivity|]. split; [vm_compute; reflexivity|].
  apply (gate_replaced_not_kept ResultGates Scenario.testCaseKey _ _
           {| gateId := 3; resolveCalls := 1 |} {| gateId := 4; resolveCalls := 1 |});
    [vm_compute; reflexivity|vm_compute; reflexivity|discriminate].
Qed.

Lemma retries_is_attempts_plus_one_witness :
  let r := run Scenario.shortHash Scenario.testId Scenario.pathJoin
             [RunStart 1 "dir" true; TestFileStart Scenario.test;
              TestCaseStart Scenario.test Scenario.start 5;
              TestCaseResultEv Scenario.test Scenario.passed]
             (newReporter "/repo" None) in
  let out := onTestFileResult Scenario.shortHash Scenario.testId Scenario.test
               Scenario.fileResult true r in
  snd out = Fulfilled
  /\ (fun file => map (fun entry => (ReportTest.retries entry,
                                     length (ReportTest.attempts entry)))
                    (InstanceReport.results_tests file.2)) <$> head (files (fst out))
     = Some [(2%nat, 1%nat)]
  /\ exists dir name report,
       files (fst out) = (dir, name, report) :: files r
       /\ Forall (fun entry =>
                    ReportTest.retries entry
                    = (length (ReportTest.attempts entry) + 1)%nat
                    /\ (length (ReportTest.attempts entry) = 1%nat ->
                        ReportTest.retries entry = 2%nat))
            (InstanceReport.results_tests report).
Proof.
  cbn zeta.
  set (r := run _ _ _ _ _). set (out := onTestFileResult _ _ _ _ _ _).
  assert (Hs : snd out = Fulfilled) by (vm_compute; reflexivity).
  assert (H : out = (fst out, Fulfilled)) by (rewrite <- Hs; apply surjective_pairing).
  split; [exact Hs|]. split; [vm_compute; reflexivity|].
  destruct (retries_is_attempts_plus_one Scenario.shortHash Scenario.testId
              Scenario.test Scenario.fileResult true r (fst out) H)
    as (dir & name & report & spec & Hfiles & _ & _ & Hall).
  exists dir, name, report. split; [exact Hfiles|exact Hall].
Defined.

Lemma stats_pending_and_skipped_witness :
  let r := run Scenario.shortHash Scenario.testId Scenario.pathJoin
             [RunStart 1 "dir" true; TestFileStart Scenario.test;
              TestCaseStart Scenario.test Scenario.start 5;
              TestCaseResultEv Scenario.test Scenario.passed]
             (newReporter "/repo" None) in
  let out := onTestFileResult Scenario.shortHash Scenario.testId Scenario.test
               Scenario.fileResult true r in
  snd out = Fulfilled
  /\ exists dir name report,
       files (fst out) = (dir, name, report) :: files r
       /\ Stats.pending (InstanceReport.results_stats report) = 0%nat
       /\ Stats.skipped (InstanceReport.results_stats report) = 0%nat.
Proof.
  cbn zeta.
  set (r := run _ _ _ _ _). set (out := onTestFileResult _ _ _ _ _ _).
  assert (Hs : snd out = Fulfilled) by (vm_compute; reflexivity).
  assert (H : out = (fst out, Fulfilled)) by (rewrite <- Hs; apply surjective_pairing).
  split; [exact Hs|].
  exact (stats_pending_and_skipped Scenario.shortHash Scenario.testId
           Scenario.test Scenario.fileResult true r (fst out) H).
Defined.

Lemma key_stability_witness :
  let r := run Scenario.shortHash Scenario.testId Scenario.pathJoin
             [RunStart 1 "dir" true; TestFileStart Scenario.test]
             (newReporter "/repo" None) in
  let events :=
    [TestCaseStart Scenario.test Scenario.start 5;
     TestCaseResultEv Scenario.test (Scenario.outcome "failed" 1);
     TestCaseStart Scenario.test Scenario.start 6;
     TestCaseResultEv Scenario.test (Scenario.outcome "failed" 2);
     TestCaseStart Scenario.test Scenario.start 7;
     TestCaseResultEv Scenario.test (Scenario.outcome "passed" 3)] in
  reporter_ok r
  /\ is_Some (specInfoDeferred r !! Scenario.specKey)
  /\ testCaseAt r Scenario.specKey Scenario.testCaseKey = None
  /\ Forall (describes Scenario.test ["sum"] "adds") events
  /\ (0 < countResults events)%nat
  /\ Forall (fun k => k = Some Scenario.testCaseKey)
       (keysUsed Scenario.shortHash Scenario.testId Scenario.pathJoin events r)
  /\ exists testCase,
       testCaseAt (run Scenario.shortHash Scenario.testId Scenario.pathJoin events r)
         Scenario.specKey Scenario.testCaseKey = Some testCase
       /\ length (TestCase.result testCase) = 3%nat.
Proof.
  cbn zeta.
  set (r := run _ _ _ [_; _] _). set (events := [_; _; _; _; _; _]).
  assert (Hok : reporter_ok r) by apply reporter_ok_run, reporter_ok_newReporter.
  assert (Hgate : is_Some (specInfoDeferred r !! Scenario.specKey))
    by (vm_compute; eexists; reflexivity).
  assert (Hnone : testCaseAt r Scenario.specKey Scenario.testCaseKey = None)
    by (vm_compute; reflexivity).
  assert (Hall : Forall (describes Scenario.test ["sum"] "adds") events)
    by (repeat constructor).
  assert (Hpos : (0 < countResults events)%nat) by (vm_compute; lia).
  split; [exact Hok|]. split; [exact Hgate|]. split; [exact Hnone|].
  split; [exact Hall|]. split; [exact Hpos|].
  destruct (key_stability Scenario.shortHash Scenario.testId Scenario.pathJoin Scenario.test
              ["sum"] "adds" events r Hok (or_introl Hgate) Hnone Hall Hpos)
    as (_ & _ & _ & Hkeys & Hcase).
  split; [exact Hkeys|exact Hcase].
Defined.

(** ** Concrete instances of the further properties *)

Lemma getRawTestStatus_mixed_witness :
  Scenario.outcome "failed" 1 ∈ TestCase.result Scenario.flakyCase
  /\ Scenario.outcome "passed" 3 ∈ TestCase.result Scenario.flakyCase
  /\ getRawTestStatus (TestCase.result Scenario.flakyCase) = TestExpectedStatus.Failed
  /\ getTestCaseStatus (TestCase.result Scenario.flakyCase) = TestState.Failed.
Proof.
  assert (H1 : Scenario.outcome "failed" 1 ∈ TestCase.result Scenario.flakyCase)
    by apply list_elem_of_here.
  assert (H2 : Scenario.outcome "passed" 3 ∈ TestCase.result Scenario.flakyCase)
    by (do 2 apply list_elem_of_further; apply list_elem_of_here).
  split; [exact H1|]. split; [exact H2|].
  apply (getRawTestStatus_mixed _ _ _ H1 H2). discriminate.
Defined.

Lemma isFlaky_state_witness :
  isFlaky [Scenario.outcome "passed" 1; Scenario.outcome "passed" 2] = true
  /\ getTestCaseStatus [Scenario.outcome "passed" 1; Scenario.outcome "passed" 2]
     = TestState.Passed.
Proof.
  assert (H : isFlaky [Scenario.outcome "passed" 1; Scenario.outcome "passed" 2] = true)
    by reflexivity.
  split; [exact H|].
  apply (proj1 (isFlaky_state _ H)). repeat constructor.
Defined.

Lemma attempts_in_arrival_order_witness :
  let r := run Scenario.shortHash Scenario.testId Scenario.pathJoin
             [RunStart 1 "dir" true; TestFileStart Scenario.test]
             (newReporter "/repo" None) in
  let events :=
    [TestCaseStart Scenario.test Scenario.start 5;
     TestCaseResultEv Scenario.test (Scenario.outcome "failed" 1);
     TestCaseStart Scenario.test Scenario.start 6;
     TestCaseResultEv Scenario.test (Scenario.outcome "passed" 2)] in
  reporter_ok r
  /\ testCaseAt r Scenario.specKey Scenario.testCaseKey = None
  /\ Forall (describes Scenario.test ["sum"] "adds") events
  /\ exists testCase,
       testCaseAt (run Scenario.shortHash Scenario.testId Scenario.pathJoin events r)
         Scenario.specKey Scenario.testCaseKey = Some testCase
       /\ TestCase.result testCase
          = [Scenario.outcome "failed" 1; Scenario.outcome "passed" 2]
       /\ TestCase.timestamps testCase = [1000; 1000].
Proof.
  cbn zeta.
  set (r := run _ _ _ [_; _] _). set (events := [_; _; _; _]).
  assert (Hok : reporter_ok r) by apply reporter_ok_run, reporter_ok_newReporter.
  assert (Hnone : testCaseAt r Scenario.specKey Scenario.testCaseKey = None)
    by (vm_compute; reflexivity).
  assert (Hall : Forall (describes Scenario.test ["sum"] "adds") events)
    by (repeat constructor).
  assert (Hne : events <> []) by discriminate.
  split; [exact Hok|]. split; [exact Hnone|]. split; [exact Hall|].
  exact (attempts_in_arrival_order Scenario.shortHash Scenario.testId Scenario.pathJoin Scenario.test
           ["sum"] "adds" events r Hok (or_intror I) Hnone Hall Hne).
Defined.

Lemma declared_tests_reported_witness :
  let r := run Scenario.shortHash Scenario.testId Scenario.pathJoin
             [RunStart 1 "dir" true; TestFileStart Scenario.test]
             (newReporter "/repo" None) in
  let out := onTestFileResult Scenario.shortHash Scenario.testId Scenario.test
               Scenario.fileResult true r in
  snd out = Fulfilled
  /\ exists dir name report,
       files (fst out) = (dir, name, report) :: files r
       /\ forall x, x ∈ TestResult.testResults Scenario.fileResult ->
            exists testCase,
              testCaseAt (fst out) Scenario.specKey
                (declaredKey Scenario.testId Scenario.test r x) = Some testCase
              /\ reportTest 900 900 "sum.test.ts" testCase
                 ∈ InstanceReport.results_tests report.
Proof.
  cbn zeta.
  set (r := run _ _ _ _ _). set (out := onTestFileResult _ _ _ _ _ _).
  assert (Hs : snd out = Fulfilled) by (vm_compute; reflexivity).
  assert (H : out = (fst out, Fulfilled)) by (rewrite <- Hs; apply surjective_pairing).
  split; [exact Hs|].
  exact (declared_tests_reported Scenario.shortHash Scenario.testId
           Scenario.test Scenario.fileResult true r (fst out) H).
Defined.

Lemma onTestFileResult_synthesizes_witness :
  let r := run Scenario.shortHash Scenario.testId Scenario.pathJoin
             [RunStart 1 "dir" true; TestFileStart Scenario.test]
             (newReporter "/repo" None) in
  let r' := fst (onTestFileResult Scenario.shortHash Scenario.testId Scenario.test
                   Scenario.fileResult true r) in
  specInfo r !! Scenario.specKey = Some (emptySpecInfo None "root" "sum.test.ts")
  /\ testCaseAt r Scenario.specKey Scenario.testCaseKey = None
  /\ testCaseAt r' Scenario.specKey Scenario.testCaseKey
     = Some (skippedTestCase Scenario.test
               (getTestCaseId Scenario.testId Scenario.test ["sum"] "adds")
               Scenario.passed [Scenario.passed]).
Proof.
  cbn zeta.
  set (r := run _ _ _ _ _).
  assert (Hspec : specInfo r !! Scenario.specKey
                  = Some (emptySpecInfo None "root" "sum.test.ts"))
    by (vm_compute; reflexivity).
  assert (Hnone : testCaseAt r Scenario.specKey Scenario.testCaseKey = None)
    by (vm_compute; reflexivity).
  assert (Hfind : List.find
                    (fun y => String.eqb (declaredKey Scenario.testId Scenario.test r y)
                                (declaredKey Scenario.testId Scenario.test r Scenario.passed))
                    (TestResult.testResults Scenario.fileResult) = Some Scenario.passed)
    by (vm_compute; reflexivity).
  split; [exact Hspec|]. split; [exact Hnone|].
  exact (proj1 (onTestFileResult_synthesizes Scenario.shortHash Scenario.testId
                  Scenario.test Scenario.fileResult true r _ Scenario.passed
                  Hspec Hfind Hnone)).
Defined.

Lemma onTestFileResult_rejected_without_result_witness :
  let r := run Scenario.shortHash Scenario.testId Scenario.pathJoin
             [RunStart 1 "dir" true; TestFileStart Scenario.test;
              TestCaseStart Scenario.test Scenario.start 5]
             (newReporter "/repo" None) in
  let out := onTestFileResult Scenario.shortHash Scenario.testId Scenario.test
               Scenario.fileResult true r in
  Scenario.passed ∈ TestResult.testResults Scenario.fileResult
  /\ is_Some (testCaseAt r Scenario.specKey Scenario.testCaseKey)
  /\ resultsDeferred r !! Scenario.testCaseKey = None
  /\ snd out = Rejected
  /\ files (fst out) = files r
  /\ processedSpecsCount (fst out) = processedSpecsCount r.
Proof.
  cbn zeta.
  set (r := run _ _ _ _ _).
  assert (Hin : Scenario.passed ∈ TestResult.testResults Scenario.fileResult)
    by apply list_elem_of_here.
  assert (Hnone : resultsDeferred r !! Scenario.testCaseKey = None)
    by (vm_compute; reflexivity).
  destruct (testCaseAt r Scenario.specKey Scenario.testCaseKey) as [testCase|] eqn:Hrec;
    [|vm_compute in Hrec; discriminate Hrec].
  split; [exact Hin|]. split; [eauto|]. split; [exact Hnone|].
  exact (onTestFileResult_rejected_without_result Scenario.shortHash Scenario.testId
           Scenario.test Scenario.fileResult true r Scenario.passed testCase
           Hin Hrec Hnone).
Defined.

Lemma handlers_keep_other_specs_witness :
  let other := {| testToSpecName := "other.test.ts"; getProjectId := "root";
                  context_config_rootDir := "/repo" |} in
  let r := run Scenario.shortHash Scenario.testId Scenario.pathJoin
             [RunStart 1 "dir" true; TestFileStart Scenario.test; TestFileStart other;
              TestCaseStart other Scenario.start 5]
             (newReporter "/repo" None) in
  let e := TestCaseResultEv Scenario.test Scenario.passed in
  specKeyOf e r = Some Scenario.specKey
  /\ "root:other.test.ts" <> Scenario.specKey
  /\ specInfo (fst (handle Scenario.shortHash Scenario.testId Scenario.pathJoin e r)) !! "root:other.test.ts"
     = specInfo r !! "root:other.test.ts".
Proof.
  cbn zeta.
  set (r := run _ _ _ _ _).
  assert (Hkey : specKeyOf (TestCaseResultEv Scenario.test Scenario.passed) r
                 = Some Scenario.specKey) by (vm_compute; reflexivity).
  assert (Hne : "root:other.test.ts" <> Scenario.specKey) by discriminate.
  split; [exact Hkey|]. split; [exact Hne|].
  exact (handlers_keep_other_specs Scenario.shortHash Scenario.testId Scenario.pathJoin _ r _ _ Hkey Hne).
Defined.

Lemma onTestFileStart_waits_for_run_start_witness :
  let r := newReporter "/repo" None in
  let r1 := fst (onRunStart Scenario.pathJoin 1 "dir" false r) in
  settled (reportDirDeferred r) = false
  /\ snd (onRunStart Scenario.pathJoin 1 "dir" false r) = Rejected
  /\ snd (onTestFileStart Scenario.test r1) = Pending
  /\ awaitingReportDir (fst (onTestFileStart Scenario.test r1)) = [Scenario.test]
  /\ specInfo (fst (onTestFileStart Scenario.test r1)) = ∅.
Proof.
  cbn zeta.
  assert (H : settled (reportDirDeferred (newReporter "/repo" None)) = false)
    by reflexivity.
  split; [exact H|].
  destruct (onTestFileStart_waits_for_run_start Scenario.pathJoin 1 "dir" Scenario.test
              (newReporter "/repo" None) H) as (H1 & _ & H3 & H4 & _ & H6 & _).
  split; [exact H1|]. split; [exact H3|]. split; [exact H4|exact H6].
Defined.

Lemma reportTest_attempt_witness :
  TestCase.result Scenario.flakyCase !! 1%nat = Some (Scenario.outcome "failed" 2)
  /\ exists a,
       ReportTest.attempts (reportTest 900 900 "sum.test.ts" Scenario.flakyCase) !! 1%nat
       = Some a
       /\ Attempt.status a = TestExpectedStatus.Failed
       /\ Attempt.startTime a = 1010.
Proof.
  assert (H : TestCase.result Scenario.flakyCase !! 1%nat
              = Some (Scenario.outcome "failed" 2)) by reflexivity.
  split; [exact H|].
  destruct (reportTest_attempt 900 900 "sum.test.ts" Scenario.flakyCase 1
              (Scenario.outcome "failed" 2) H)
    as (a & Ha & Hstatus & _ & _ & _ & _ & Hstart).
  exists a. split; [exact Ha|]. split; [exact Hstatus|exact Hstart].
Defined.

(** C9, the code at the failing input: the case result of a test arrives
    before anything has made the per-spec gate of its spec, then the test is
    started and its second result arrives.  All three calls compute the same
    test-case key, but the first result is rejected and lost, so the record
    ends with one attempt for two case results.  This holds when the file
    start was called and still waits for the report directory, and when no
    file start was called at all (the project then reads as undefined). *)
Theorem result_before_spec_start_is_lost :
  let events :=
    [TestCaseResultEv Scenario.test (Scenario.outcome "failed" 1);
     TestCaseStart Scenario.test Scenario.start 5;
     TestCaseResultEv Scenario.test (Scenario.outcome "passed" 2)] in
  let waiting := fst (onTestFileStart Scenario.test (newReporter "/repo" None)) in
  let unstarted := newReporter "/repo" None in
  Forall (describes Scenario.test ["sum"] "adds") events
  /\ countResults events = 2%nat
  /\ (keysUsed Scenario.shortHash Scenario.testId Scenario.pathJoin events waiting
      = [Some Scenario.testCaseKey; Some Scenario.testCaseKey; Some Scenario.testCaseKey]
      /\ settlements Scenario.shortHash Scenario.testId Scenario.pathJoin events waiting
         = [Rejected; Fulfilled; Fulfilled]
      /\ TestCase.result
           <$> testCaseAt (run Scenario.shortHash Scenario.testId Scenario.pathJoin
                             events waiting)
                 Scenario.specKey Scenario.testCaseKey
         = Some [Scenario.outcome "passed" 2])
  /\ (keysUsed Scenario.shortHash Scenario.testId Scenario.pathJoin events unstarted
      = [Some "undefined:sum.test.ts:h-sum addssum.test.ts";
         Some "undefined:sum.test.ts:h-sum addssum.test.ts";
         Some "undefined:sum.test.ts:h-sum addssum.test.ts"]
      /\ settlements Scenario.shortHash Scenario.testId Scenario.pathJoin events unstarted
         = [Rejected; Fulfilled; Fulfilled]
      /\ attemptsAt (run Scenario.shortHash Scenario.testId Scenario.pathJoin
                       events unstarted)
           "undefined:sum.test.ts" "undefined:sum.test.ts:h-sum addssum.test.ts"
         = 1%nat).
Proof.
  cbn zeta. split; [repeat constructor|].
  vm_compute. repeat split; reflexivity.
Qed.

(** Two file results for one spec write to one path: the second report
    replaces the first on disk, while both are counted. *)
Example second_report_replaces_first :
  let r := run Scenario.shortHash Scenario.testId Scenario.pathJoin
             [RunStart 1 "dir" true; TestFileStart Scenario.test;
              TestCaseStart Scenario.test Scenario.start 5;
              TestCaseResultEv Scenario.test Scenario.passed;
              TestFileResult Scenario.test Scenario.fileResult true;
              TestFileResult Scenario.test Scenario.fileResult true]
             (newReporter "/repo" None) in
  processedSpecsCount r = 2%nat
  /\ size (disk Scenario.pathJoin r) = 1%nat
  /\ is_Some (disk Scenario.pathJoin r !! "/repo/dir/instances/h-sum.test.ts.json").
Proof.
  cbn zeta. split; [vm_compute; reflexivity|]. split; [vm_compute; reflexivity|].
  vm_compute. eexists. reflexivity.
Qed.
